(** * chuk_mcp_artifact_server: a shallow embedding of [tools.py]

    The handlers of [tools.py] are async functions that talk to an external
    object store ([STORE]), validate their results with pydantic models
    ([models.py]) and log through [logger].  They are embedded here as
    computations in a small exception/state/writer monad:

    - the backend state is threaded explicitly;
    - a Python exception is the [Raise] outcome;
    - every call made to the store, and every log record, is appended to the
      list of effects of the run, so that statements such as "no delete was
      attempted" are statements about that list.

    The store, pydantic's field validators and the Python runtime services
    (session resolution, [str.encode]) are interfaces of other packages; they
    are classes here, and the in-memory [FakeStore] of
    [tests/test_artifact_tools.py] is one instance of the store. *)

From Stdlib Require Import ZArith NArith List String Ascii Lia.
From Stdlib.Strings Require Import Byte.
From stdpp Require Import base option list strings gmap.

Set Warnings "-register-all".

Local Open Scope string_scope.
Local Open Scope list_scope.

(** ** Python values *)

Definition pybytes := list byte.

(** [Any]: the values a raw metadata record can carry. *)
Inductive pyval : Type :=
| PyNone
| PyBool (b : bool)
| PyInt (z : Z)
| PyStr (s : string)
| PyBytes (b : pybytes)
| PyList (l : list pyval)
| PyDict (d : list (string * pyval)).

(** [Dict[str, Any]] as a value (the [meta] field). *)
Definition pydict := list (string * pyval).

(** Python truthiness, as used by [or], [not] and [bool(...)]. *)
Definition truthy (v : pyval) : bool :=
  match v with
  | PyNone => false
  | PyBool b => b
  | PyInt z => negb (z =? 0)%Z
  | PyStr s => negb (String.eqb s "")
  | PyBytes b => match b with [] => false | _ => true end
  | PyList l => match l with [] => false | _ => true end
  | PyDict d => match d with [] => false | _ => true end
  end.

(** [a or b] (both already evaluated). *)
Definition py_or (a b : pyval) : pyval := if truthy a then a else b.

(** [Optional[str]] seen as a value. *)
Definition of_opt_str (o : option string) : pyval :=
  match o with Some s => PyStr s | None => PyNone end.

(** Truthiness of an [Optional[str]] argument: [if overwrite_artifact_id]. *)
Definition truthy_opt (o : option string) : bool := truthy (of_opt_str o).

(** ** Exceptions *)

Inductive exn : Type :=
| KeyError (key : string)
| IndexError (msg : string)
| AttributeError (msg : string)
| TypeError (msg : string)
| ValueError (msg : string)
| ValidationError (msg : string)   (* pydantic.ValidationError *)
| ProviderError (msg : string)     (* chuk_artifacts.exceptions.ProviderError *)
| OtherException (cls msg : string).

(** [repr(s)] of a [str], as CPython prints it: in single quotes, or in
    double quotes when the text has a single quote and no double one; the
    quote in use and the backslash escaped by a backslash; tab, newline and
    carriage return as [\t], [\n], [\r]; the other control characters and
    DEL as [\xhh].  Bytes above 127 belong to the UTF-8 form of characters
    outside ASCII and are copied as they are, as [repr] does with the
    printable ones. *)
Fixpoint str_has (c : ascii) (s : string) : bool :=
  match s with
  | EmptyString => false
  | String a s' => Ascii.eqb a c || str_has c s'
  end.

Definition hex_digit (n : N) : ascii :=
  match String.get (N.to_nat n) "0123456789abcdef" with
  | Some c => c
  | None => "0"%char
  end.

Definition repr_char (quote c : ascii) : string :=
  let n := N_of_ascii c in
  if Ascii.eqb c quote || Ascii.eqb c "092"%char
  then String "092"%char (String c EmptyString)
  else if (n =? 9)%N then "\t"
  else if (n =? 10)%N then "\n"
  else if (n =? 13)%N then "\r"
  else if (n <? 32)%N || (n =? 127)%N
  then String "092"%char
         (String "x"%char
            (String (hex_digit (n / 16))
               (String (hex_digit (n mod 16)) EmptyString)))
  else String c EmptyString.

Fixpoint repr_body (quote : ascii) (s : string) : string :=
  match s with
  | EmptyString => EmptyString
  | String c s' => repr_char quote c +:+ repr_body quote s'
  end.

Definition str_repr (s : string) : string :=
  let quote := if str_has "'"%char s && negb (str_has "034"%char s)
               then "034"%char else "'"%char in
  String quote (repr_body quote s +:+ String quote EmptyString).

(** [str(exc)].  [str(KeyError(k))] is the repr of the key. *)
Definition exn_str (e : exn) : string :=
  match e with
  | KeyError k => str_repr k
  | IndexError m | AttributeError m | TypeError m | ValueError m
  | ValidationError m | ProviderError m | OtherException _ m => m
  end.

Inductive res (A : Type) : Type :=
| Ok (a : A)
| Raise (e : exn).
Arguments Ok {A} a.
Arguments Raise {A} e.

Definition res_map {A B} (f : A -> B) (r : res A) : res B :=
  match r with Ok a => Ok (f a) | Raise e => Raise e end.

Definition is_ok {A} (r : res A) : bool :=
  match r with Ok _ => true | Raise _ => false end.

(** ** Strings *)

(** [needle in haystack] for strings. *)
Fixpoint starts_with (p s : string) : bool :=
  match p, s with
  | EmptyString, _ => true
  | String a p', String b s' => if Ascii.eqb a b then starts_with p' s' else false
  | String _ _, EmptyString => false
  end.

Fixpoint str_contains (needle hay : string) : bool :=
  if starts_with needle hay then true
  else match hay with
       | EmptyString => false
       | String _ hay' => str_contains needle hay'
       end.

(** [s.split(sep)] for a one-character separator: never the empty list. *)
Fixpoint str_split (sep : ascii) (s : string) : list string :=
  match s with
  | EmptyString => [EmptyString]
  | String c s' =>
      if Ascii.eqb c sep then EmptyString :: str_split sep s'
      else match str_split sep s' with
           | h :: t => String c h :: t
           | [] => [String c EmptyString]
           end
  end.

(** [l[-1]]. *)
Definition py_last {A} (l : list A) : res A :=
  match List.rev l with
  | x :: _ => Ok x
  | [] => Raise (IndexError "list index out of range")
  end.

(** ** base64 (RFC 4648, the alphabet and padding of Python's [base64]) *)

Definition b64_alphabet : string :=
  "ABCDEFGHIJKLMNOPQRSTUVWXYZabcdefghijklmnopqrstuvwxyz0123456789+/".

Definition b64_char (n : N) : ascii :=
  match String.get (N.to_nat n) b64_alphabet with
  | Some c => c
  | None => "="%char
  end.

Definition b64_index (c : ascii) : option N :=
  let n := N_of_ascii c in
  if ((65 <=? n) && (n <=? 90))%N then Some (n - 65)%N
  else if ((97 <=? n) && (n <=? 122))%N then Some (n - 71)%N
  else if ((48 <=? n) && (n <=? 57))%N then Some (n + 4)%N
  else if (n =? 43)%N then Some 62%N
  else if (n =? 47)%N then Some 63%N
  else None.

(** [base64.b64encode(data).decode()]. *)
Fixpoint b64encode (data : pybytes) : string :=
  match data with
  | [] => EmptyString
  | [a] =>
      let n := (Byte.to_N a * 65536)%N in
      String (b64_char (n / 262144))
        (String (b64_char ((n / 4096) mod 64)) "==")
  | [a; b] =>
      let n := (Byte.to_N a * 65536 + Byte.to_N b * 256)%N in
      String (b64_char (n / 262144))
        (String (b64_char ((n / 4096) mod 64))
           (String (b64_char ((n / 64) mod 64)) "="))
  | a :: b :: c :: rest =>
      let n := (Byte.to_N a * 65536 + Byte.to_N b * 256 + Byte.to_N c)%N in
      String (b64_char (n / 262144))
        (String (b64_char ((n / 4096) mod 64))
           (String (b64_char ((n / 64) mod 64))
              (String (b64_char (n mod 64)) (b64encode rest))))
  end.

Definition byte_of (n : N) : byte :=
  match Byte.of_N n with Some b => b | None => Byte.x00 end.

(** [base64.b64decode(s)] on padded input; [None] stands for [binascii.Error]. *)
Fixpoint b64decode (s : string) : option pybytes :=
  match s with
  | EmptyString => Some []
  | String c0 (String c1 (String c2 (String c3 rest))) =>
      match b64_index c0, b64_index c1 with
      | Some i0, Some i1 =>
          if Ascii.eqb c2 "="%char then
            if Ascii.eqb c3 "="%char then
              match rest with
              | EmptyString => Some [byte_of ((i0 * 64 + i1) / 16)]
              | _ => None
              end
            else None
          else
            match b64_index c2 with
            | Some i2 =>
                if Ascii.eqb c3 "="%char then
                  match rest with
                  | EmptyString =>
                      let n := ((i0 * 64 + i1) * 64 + i2)%N in
                      Some [byte_of (n / 1024); byte_of ((n / 4) mod 256)]
                  | _ => None
                  end
                else
                  match b64_index c3, b64decode rest with
                  | Some i3, Some tl =>
                      let n := (((i0 * 64 + i1) * 64 + i2) * 64 + i3)%N in
                      Some (byte_of (n / 65536) :: byte_of ((n / 256) mod 256)
                              :: byte_of (n mod 256) :: tl)
                  | _, _ => None
                  end
            | None => None
            end
      | _, _ => None
      end
  | _ => None
  end.

(** ** Raw metadata records

    What [STORE.metadata] and the listing calls hand back: a
    [Dict[str, Any]] whose key names vary by backend. *)

Abbreviation raw := (gmap string pyval).

(** [meta.get(k)]: [None] when the key is absent. *)
Definition raw_get (k : string) (m : raw) : pyval := default PyNone (m !! k).

(** [meta.get(k, d)]. *)
Definition raw_get_default (k : string) (d : pyval) (m : raw) : pyval :=
  default d (m !! k).

(** [meta[k]]: [KeyError] when the key is absent. *)
Definition raw_item (k : string) (m : raw) : res pyval :=
  match m !! k with
  | Some v => Ok v
  | None => Raise (KeyError k)
  end.

(** ** pydantic

    The field validators of pydantic are not part of this repository.  A
    field of type [str], [int] or [Dict[str, Any]] accepts a value of that
    very type unchanged; what else it accepts (lax coercions) is left to the
    instance. *)

Class Pydantic : Type := {
  as_str : pyval -> option string;
  as_int : pyval -> option Z;
  as_dict : pyval -> option pydict;
  as_str_str : forall s, as_str (PyStr s) = Some s;
  as_int_int : forall z, as_int (PyInt z) = Some z;
  as_dict_dict : forall d, as_dict (PyDict d) = Some d
}.

(** A field of type [Optional[str]]: [None], or whatever [str] accepts. *)
Definition as_opt_str `{Pydantic} (v : pyval) : option (option string) :=
  match v with
  | PyNone => Some None
  | _ => Some <$> as_str v
  end.

(** Strict validation: no coercion at all. *)
#[refine] Instance pydantic_strict : Pydantic := {
  as_str v := match v with PyStr s => Some s | _ => None end;
  as_int v := match v with PyInt z => Some z | _ => None end;
  as_dict v := match v with PyDict d => Some d | _ => None end
}.
Proof. all: reflexivity. Defined.

(** ** Models ([models.py]) *)

Module ArtifactInfo.
Record t : Type := Build {
  artifact_id : string;
  filename : option string;
  mime : string;
  bytes : Z;
  summary : option string;
  stored_at : string;
  session_id : option string;
  meta : pydict
}.
End ArtifactInfo.

Module ListSessionFilesResult.
Record t : Type := Build {
  count : Z;
  session_id : string;
  artifacts : list ArtifactInfo.t
}.
End ListSessionFilesResult.

Module ListDirectoryResult.
Record t : Type := Build {
  count : Z;
  session_id : string;
  directory : string;
  artifacts : list ArtifactInfo.t
}.
End ListDirectoryResult.

Module DownloadFileResult.
Record t : Type := Build {
  artifact : ArtifactInfo.t;
  download_url : option string;
  data_base64 : option string
}.
End DownloadFileResult.

Module DeleteFileResult.
Record t : Type := Build {
  success : bool;
  artifact_id : string
}.
End DeleteFileResult.

(** [CopyFileResult(ArtifactInfo)]: the inherited fields are [info]. *)
Module CopyFileResult.
Record t : Type := Build {
  info : ArtifactInfo.t;
  source_artifact_id : string;
  operation : string
}.
End CopyFileResult.

Module ReadFileResult.
Record t : Type := Build {
  artifact_id : string;
  content_type : string;
  content : option string;
  content_base64 : option string;
  encoding : option string;
  bytes : option Z
}.
End ReadFileResult.

(** [WriteFileResult(ArtifactInfo)]: the inherited fields are [info]. *)
Module WriteFileResult.
Record t : Type := Build {
  info : ArtifactInfo.t;
  download_url : option string;
  operation : string
}.
End WriteFileResult.

Module WriteFileInput.
Record t : Type := Build {
  content : string;
  filename : string;
  session_id : option string;
  mime : string;
  summary : string;
  meta : pydict;
  encoding : string;
  overwrite_artifact_id : option string
}.
End WriteFileInput.

Module CopyFileInput.
Record t : Type := Build {
  artifact_id : string;
  filename : option string;
  session_id : option string;
  meta : pydict
}.
End CopyFileInput.

(** ** The external store

    [ArtifactStore] of [chuk_mcp_runtime.artifacts] is used through the
    methods below only.  Each method takes the backend state and returns its
    outcome with the new state; an exception of the backend keeps whatever
    state change it made before raising, as in Python. *)

Module STORE.
Class ArtifactStore : Type := {
  St : Type;
  (* store(data=, mime=, summary=, filename=, session_id=, meta=) -> str *)
  store : pybytes -> string -> string -> string -> option string -> pydict ->
          St -> res string * St;
  (* write_file(content, filename=, mime=, summary=, session_id=, meta=,
                encoding=, overwrite_artifact_id=) -> str *)
  write_file : string -> string -> string -> string -> option string ->
               pydict -> string -> option string -> St -> res string * St;
  metadata : string -> St -> res raw * St;
  retrieve : string -> St -> res pybytes * St;
  (* list_by_prefix(session_id, prefix, limit=) -> List[Dict] *)
  list_by_prefix : string -> string -> Z -> St -> res (list raw) * St;
  (* get_directory_contents(session_id, directory, limit=) -> List[Dict] *)
  get_directory_contents : string -> string -> Z -> St -> res (list raw) * St;
  presign_short : string -> St -> res string * St;
  presign_medium : string -> St -> res string * St;
  (* delete(artifact_id): the handler takes [bool(...)] of what comes back *)
  delete : string -> St -> res pyval * St;
  (* copy_file(artifact_id, new_filename=, target_session_id=, new_meta=) -> str *)
  copy_file : string -> option string -> option string -> pydict ->
              St -> res string * St;
  (* read_file(artifact_id, as_text=, encoding=) -> str | bytes *)
  read_file : string -> bool -> string -> St -> res pyval * St
}.
End STORE.

(** ** Runtime services: session context and codecs *)

Class Runtime : Type := {
  (* chuk_mcp_runtime.session: the effective session, or an exception *)
  validate_session_parameter : option string -> string -> res string;
  (* content.encode(encoding) *)
  str_encode : string -> string -> res pybytes
}.

(** ** Effects of a run *)

(** A call of this layer to the store, with the arguments it passed. *)
Inductive call : Type :=
| Call_store (data : pybytes) (mime summary filename : string)
    (session_id : option string) (meta : pydict)
| Call_write_file (content filename mime summary : string)
    (session_id : option string) (meta : pydict) (encoding : string)
    (overwrite_artifact_id : option string)
| Call_metadata (artifact_id : string)
| Call_retrieve (artifact_id : string)
| Call_list_by_prefix (session_id prefix : string) (limit : Z)
| Call_get_directory_contents (session_id directory : string) (limit : Z)
| Call_presign_short (artifact_id : string)
| Call_presign_medium (artifact_id : string)
| Call_delete (artifact_id : string)
| Call_copy_file (artifact_id : string) (new_filename target_session_id : option string)
    (new_meta : pydict)
| Call_read_file (artifact_id : string) (as_text : bool) (encoding : string).

(** What the store answered. *)
Inductive reply : Type :=
| Reply_str (s : string)
| Reply_raw (m : raw)
| Reply_raws (l : list raw)
| Reply_bytes (b : pybytes)
| Reply_val (v : pyval).

Inductive level : Type := DEBUG | INFO | WARNING.

Inductive effect : Type :=
| Called (c : call) (r : res reply)
| Logged (lv : level) (msg : string).

Definition is_delete_call (e : effect) : bool :=
  match e with Called (Call_delete _) _ => true | _ => false end.

Definition is_store_call (e : effect) : bool :=
  match e with Called (Call_store _ _ _ _ _ _) _ => true | _ => false end.

(** ** The monad of handlers *)

Record outcome (S A : Type) : Type := Outcome {
  result : res A;
  final : S;
  effects : list effect
}.
Arguments Outcome {S A} result final effects.
Arguments result {S A} o.
Arguments final {S A} o.
Arguments effects {S A} o.

Definition M (S A : Type) : Type := S -> outcome S A.

Definition ret {S A} (a : A) : M S A := fun st => Outcome (Ok a) st [].

Definition raise {S A} (e : exn) : M S A := fun st => Outcome (Raise e) st [].

(** A pure computation that may raise. *)
Definition lift {S A} (r : res A) : M S A := fun st => Outcome r st [].

(** The effects [ef] of what ran before, put in front of those of [o]. *)
Definition after {S A} (ef : list effect) (o : outcome S A) : outcome S A :=
  match o with
  | Outcome r st ef' => Outcome r st (ef ++ ef')
  end.

(** Sequencing, on the outcome of the first computation. *)
Definition bind_outcome {S A B} (o : outcome S A) (f : A -> M S B)
    : outcome S B :=
  match o with
  | Outcome (Ok a) st ef => after ef (f a st)
  | Outcome (Raise e) st ef => Outcome (Raise e) st ef
  end.

Definition bind {S A B} (m : M S A) (f : A -> M S B) : M S B :=
  fun st => bind_outcome (m st) f.

(** [try: body / except C as exc: handler exc], where [catches] tells which
    exceptions the class [C] covers; on the outcome of the body. *)
Definition try_outcome {S A} (o : outcome S A) (catches : exn -> bool)
    (handler : exn -> M S A) : outcome S A :=
  match o with
  | Outcome (Ok a) st ef => Outcome (Ok a) st ef
  | Outcome (Raise e) st ef =>
      if catches e then after ef (handler e st) else Outcome (Raise e) st ef
  end.

Definition try_except {S A} (body : M S A) (catches : exn -> bool)
    (handler : exn -> M S A) : M S A :=
  fun st => try_outcome (body st) catches handler.

(** [logger.<level>(msg)]. *)
Definition log {S} (lv : level) (msg : string) : M S unit :=
  fun st => Outcome (Ok tt) st [Logged lv msg].

(** A store method, recorded among the effects with its answer. *)
Definition recorded {S A} (c : call) (inj : A -> reply) (p : res A * S)
    : outcome S A :=
  match p with
  | (r, st') => Outcome r st' [Called c (res_map inj r)]
  end.

Definition invoke {S A} (c : call) (inj : A -> reply) (op : S -> res A * S)
    : M S A :=
  fun st => recorded c inj (op st).

Arguments after {S A} ef !o /.
Arguments bind_outcome {S A B} !o f /.
Arguments try_outcome {S A} !o catches handler /.
Arguments recorded {S A} c inj !p /.
Arguments bind {S A B} m f st /.
Arguments try_except {S A} body catches handler st /.
Arguments invoke {S A} c inj op st /.
Arguments ret {S A} a st /.
Arguments raise {S A} e st /.
Arguments lift {S A} r st /.
Arguments log {S} lv msg st /.

Declare Scope py_scope.
Delimit Scope py_scope with py.
Notation "x <- m ;; k" := (bind m (fun x => k))
  (at level 100, m at next level, right associativity) : py_scope.
Notation "m ;;; k" := (bind m (fun _ => k))
  (at level 100, right associativity) : py_scope.

(** [[await f(x) for x in xs]]: left to right, stopping at the first
    exception. *)
Fixpoint map_res {A B} (f : A -> res B) (xs : list A) : res (list B) :=
  match xs with
  | [] => Ok []
  | x :: xs' =>
      match f x with
      | Ok y => res_map (cons y) (map_res f xs')
      | Raise e => Raise e
      end
  end.

(** The [except] clauses of [tools.py]. *)
Definition except_Exception (e : exn) : bool := true.

Definition except_ProviderError (e : exn) : bool :=
  match e with ProviderError _ => true | _ => false end.

Definition except_ValidationError (e : exn) : bool :=
  match e with ValidationError _ => true | _ => false end.

(** ** Helper functions of [tools.py] *)

Section Tools.
Context `{PY : Pydantic} `{RT : Runtime} `{BK : STORE.ArtifactStore}.

Local Open Scope py_scope.

Abbreviation St := STORE.St.

(** [type(v).__name__]. *)
Definition type_name (v : pyval) : string :=
  match v with
  | PyNone => "NoneType"
  | PyBool _ => "bool"
  | PyInt _ => "int"
  | PyStr _ => "str"
  | PyBytes _ => "bytes"
  | PyList _ => "list"
  | PyDict _ => "dict"
  end.

(** [(meta.get("key") or "").split("/")[-1]].  Only a [str] has the
    [split] the expression relies on: [bytes.split] refuses the [str]
    separator, and the other values have no [split] at all. *)
Definition key_tail (key : pyval) : res pyval :=
  match py_or key (PyStr "") with
  | PyStr s => res_map PyStr (py_last (str_split "/" s))
  | PyBytes _ => Raise (TypeError "a bytes-like object is required, not 'str'")
  | v => Raise (AttributeError ("'" +:+ type_name v
                                  +:+ "' object has no attribute 'split'"))
  end.

(** The [or] chain of [_info]; a later operand is evaluated only when the
    earlier ones are falsy. *)
Definition resolve_art_id (meta : raw) (fallback_id : pyval) : res pyval :=
  let a := raw_get "artifact_id" meta in
  if truthy a then Ok a
  else
    let i := raw_get "id" meta in
    if truthy i then Ok i
    else
      match key_tail (raw_get "key" meta) with
      | Ok k => Ok (py_or k fallback_id)
      | Raise e => Raise e
      end.

(** [ArtifactInfo.model_validate({...})]. *)
Definition ArtifactInfo_model_validate
    (artifact_id filename mime bytes summary stored_at session_id meta : pyval)
    : res ArtifactInfo.t :=
  match as_str artifact_id, as_opt_str filename, as_str mime, as_int bytes,
        as_opt_str summary, as_str stored_at, as_opt_str session_id,
        as_dict meta with
  | Some a, Some f, Some m, Some b, Some s, Some t, Some ss, Some d =>
      Ok (ArtifactInfo.Build a f m b s t ss d)
  | _, _, _, _, _, _, _, _ =>
      Raise (ValidationError "validation error for ArtifactInfo")
  end.

(** [_info(meta, fallback_id=None, fallback_session_id=None)]. *)
Definition _info (meta : raw) (fallback_id fallback_session_id : pyval)
    : res ArtifactInfo.t :=
  match resolve_art_id meta fallback_id with
  | Raise e => Raise e
  | Ok art_id =>
      if negb (truthy art_id) then Raise (KeyError "artifact_id")
      else
        match raw_item "mime" meta with
        | Raise e => Raise e
        | Ok mime =>
        match raw_item "bytes" meta with
        | Raise e => Raise e
        | Ok bytes =>
        match raw_item "stored_at" meta with
        | Raise e => Raise e
        | Ok stored_at =>
            ArtifactInfo_model_validate
              art_id
              (raw_get "filename" meta)
              mime
              bytes
              (raw_get "summary" meta)
              stored_at
              (py_or (raw_get "session_id" meta) fallback_session_id)
              (raw_get_default "meta" (PyDict []) meta)
        end end end
  end.

(** The store methods as recorded steps of a handler. *)
Definition STORE_store data mime summary filename session_id meta : M St string :=
  invoke (Call_store data mime summary filename session_id meta) Reply_str
    (STORE.store data mime summary filename session_id meta).

Definition STORE_write_file content filename mime summary session_id meta
    encoding overwrite_artifact_id : M St string :=
  invoke (Call_write_file content filename mime summary session_id meta
            encoding overwrite_artifact_id) Reply_str
    (STORE.write_file content filename mime summary session_id meta
       encoding overwrite_artifact_id).

Definition STORE_metadata artifact_id : M St raw :=
  invoke (Call_metadata artifact_id) Reply_raw (STORE.metadata artifact_id).

Definition STORE_retrieve artifact_id : M St pybytes :=
  invoke (Call_retrieve artifact_id) Reply_bytes (STORE.retrieve artifact_id).

Definition STORE_list_by_prefix session_id prefix limit : M St (list raw) :=
  invoke (Call_list_by_prefix session_id prefix limit) Reply_raws
    (STORE.list_by_prefix session_id prefix limit).

Definition STORE_get_directory_contents session_id directory limit
    : M St (list raw) :=
  invoke (Call_get_directory_contents session_id directory limit) Reply_raws
    (STORE.get_directory_contents session_id directory limit).

Definition STORE_presign_short artifact_id : M St string :=
  invoke (Call_presign_short artifact_id) Reply_str
    (STORE.presign_short artifact_id).

Definition STORE_presign_medium artifact_id : M St string :=
  invoke (Call_presign_medium artifact_id) Reply_str
    (STORE.presign_medium artifact_id).

Definition STORE_delete artifact_id : M St pyval :=
  invoke (Call_delete artifact_id) Reply_val (STORE.delete artifact_id).

Definition STORE_copy_file artifact_id new_filename target_session_id new_meta
    : M St string :=
  invoke (Call_copy_file artifact_id new_filename target_session_id new_meta)
    Reply_str
    (STORE.copy_file artifact_id new_filename target_session_id new_meta).

Definition STORE_read_file artifact_id as_text encoding : M St pyval :=
  invoke (Call_read_file artifact_id as_text encoding) Reply_val
    (STORE.read_file artifact_id as_text encoding).

(** [_presign_or_inline(artifact_id, presign)]: the pair is
    [(download_url, data_base64)]. *)
Definition inline_payload (artifact_id : string)
    : M St (option string * option string) :=
  data <- STORE_retrieve artifact_id ;;
  ret (None, Some (b64encode data)).

Definition _presign_or_inline (artifact_id : string) (presign : bool)
    : M St (option string * option string) :=
  early <-
    (if presign then
       try_except
         (url <- STORE_presign_medium artifact_id ;;
          ret (Some (Some url, None)))
         except_Exception
         (fun exc =>
            log INFO ("Presign unavailable – falling back to inline: "
                        +:+ exn_str exc) ;;;
            ret None)
     else ret None) ;;
  match early with
  | Some r => ret r
  | None => inline_payload artifact_id
  end.

(** [_store_and_build_info(content=, filename=, mime=, summary=,
    session_id=, meta=)]. *)
Definition _store_and_build_info (content : pybytes)
    (filename mime summary session_id : string) (meta : pydict)
    : M St (string * ArtifactInfo.t) :=
  art_id <- STORE_store content mime summary filename (Some session_id) meta ;;
  meta_raw <- STORE_metadata art_id ;;
  info <- lift (_info meta_raw (PyStr art_id) (PyStr session_id)) ;;
  ret (art_id, info).

(** ** The tools *)

(** [list_session_files(session_id=None, prefix=None)]. *)
Definition list_session_files (session_id prefix : option string)
    : M St ListSessionFilesResult.t :=
  sess <- try_except
            (lift (validate_session_parameter session_id "list_session_files"))
            except_ValidationError
            (fun exc => raise (ValueError ("Invalid input: " +:+ exn_str exc))) ;;
  artifacts <- try_except
                 (meta_list <- STORE_list_by_prefix sess (default "" prefix) 1000 ;;
                  lift (map_res (fun m => _info m PyNone (PyStr sess)) meta_list))
                 except_Exception
                 (fun exc => raise (ValueError ("Failed to list session files: "
                                                  +:+ exn_str exc))) ;;
  ret (ListSessionFilesResult.Build (Z.of_nat (length artifacts)) sess artifacts).

(** [list_directory(directory, session_id=None)]. *)
Definition list_directory (directory : string) (session_id : option string)
    : M St ListDirectoryResult.t :=
  sess <- try_except
            (lift (validate_session_parameter session_id "list_directory"))
            except_ValidationError
            (fun exc => raise (ValueError ("Invalid directory input: "
                                             +:+ exn_str exc))) ;;
  artifacts <- try_except
                 (meta_list <- STORE_get_directory_contents sess directory 1000 ;;
                  lift (map_res (fun m => _info m PyNone (PyStr sess)) meta_list))
                 except_Exception
                 (fun exc => raise (ValueError ("Failed to list directory: "
                                                  +:+ exn_str exc))) ;;
  ret (ListDirectoryResult.Build (Z.of_nat (length artifacts)) sess directory
         artifacts).

(** The test of the [except ProviderError] branch of [write_file]. *)
Definition legacy_conflict (overwrite_artifact_id : option string) (msg : string)
    : bool :=
  truthy_opt overwrite_artifact_id
  && str_contains "Cross-session overwrite not permitted" msg
  && str_contains "belongs to session 'None'" msg.

(** The first [try] body of [write_file]: the normal write or overwrite. *)
Definition write_attempt (inp : WriteFileInput.t) (sess : string)
    : M St (string * ArtifactInfo.t) :=
  art_id <- STORE_write_file
              (WriteFileInput.content inp) (WriteFileInput.filename inp)
              (WriteFileInput.mime inp) (WriteFileInput.summary inp)
              (Some sess) (WriteFileInput.meta inp)
              (WriteFileInput.encoding inp)
              (WriteFileInput.overwrite_artifact_id inp) ;;
  meta_raw <- STORE_metadata art_id ;;
  info <- lift (_info meta_raw (PyStr art_id) (PyStr sess)) ;;
  ret (art_id, info).

(** The inner [try: await STORE.delete(...) / except Exception: warn]. *)
Definition delete_old (overwrite_artifact_id : string) : M St unit :=
  try_except
    (STORE_delete overwrite_artifact_id ;;; ret tt)
    except_Exception
    (fun _ => log WARNING ("Failed to delete old artefact "
                             +:+ overwrite_artifact_id)).

(** The re-creation: the content is encoded, then stored afresh. *)
Definition recreate (inp : WriteFileInput.t) (sess : string)
    : M St (string * ArtifactInfo.t) :=
  content <- lift (str_encode (WriteFileInput.content inp)
                     (WriteFileInput.encoding inp)) ;;
  _store_and_build_info content
    (WriteFileInput.filename inp) (WriteFileInput.mime inp)
    (WriteFileInput.summary inp) sess (WriteFileInput.meta inp).

(** The [except ProviderError as exc] handler of [write_file]. *)
Definition overwrite_fallback (inp : WriteFileInput.t) (sess : string)
    (overwrite_artifact_id : option string) (exc : exn)
    : M St (string * ArtifactInfo.t) :=
  let msg := exn_str exc in
  if legacy_conflict overwrite_artifact_id msg then
    delete_old (default "" overwrite_artifact_id) ;;;
    recreate inp sess
  else raise (ValueError (exn_str exc)).

(** [WriteFileInput(content=, filename=, mime=,
    summary=summary or f"Written file: {filename}", session_id=sess,
    meta=meta or {}, encoding=, overwrite_artifact_id=)]. *)
Definition write_input (content filename sess mime summary : string)
    (meta : option pydict) (encoding : string)
    (overwrite_artifact_id : option string) : WriteFileInput.t :=
  WriteFileInput.Build content filename (Some sess) mime
    (if String.eqb summary "" then "Written file: " +:+ filename else summary)
    (default [] meta) encoding overwrite_artifact_id.

(** The last steps of [write_file]: the short presigned URL, if any, the
    operation tag and the result. *)
Definition write_result (overwrite_artifact_id : option string)
    (ai : string * ArtifactInfo.t) : M St WriteFileResult.t :=
  let art_id := fst ai in
  let info := snd ai in
  url <- try_except
           (u <- STORE_presign_short art_id ;; ret (Some u))
           except_Exception
           (fun _ => ret None) ;;
  let op := if truthy_opt overwrite_artifact_id then "overwrite" else "create" in
  ret (WriteFileResult.Build info url op).

(** [write_file(content, filename, session_id=None, mime="text/plain",
    summary="", meta=None, encoding="utf-8", overwrite_artifact_id=None)]. *)
Definition write_file (content filename : string) (session_id : option string)
    (mime summary : string) (meta : option pydict) (encoding : string)
    (overwrite_artifact_id : option string) : M St WriteFileResult.t :=
  si <- try_except
          (sess <- lift (validate_session_parameter session_id "write_file") ;;
           ret (sess,
                write_input content filename sess mime summary meta encoding
                  overwrite_artifact_id))
          except_ValidationError
          (fun exc => raise (ValueError ("Invalid write input: " +:+ exn_str exc))) ;;
  let sess := fst si in
  let inp := snd si in
  ai <- try_except (write_attempt inp sess) except_ProviderError
          (overwrite_fallback inp sess overwrite_artifact_id) ;;
  write_result overwrite_artifact_id ai.

(** [download_file(artifact_id, presign=True)]. *)
Definition download_file (artifact_id : string) (presign : bool)
    : M St DownloadFileResult.t :=
  meta <- try_except (STORE_metadata artifact_id) except_Exception
            (fun exc => raise (ValueError (exn_str exc))) ;;
  info <- lift (_info meta (PyStr artifact_id) (raw_get "session_id" meta)) ;;
  extra <- _presign_or_inline artifact_id presign ;;
  ret (DownloadFileResult.Build info (fst extra) (snd extra)).

(** [get_metadata(artifact_id)]. *)
Definition get_metadata (artifact_id : string) : M St ArtifactInfo.t :=
  meta <- try_except (STORE_metadata artifact_id) except_Exception
            (fun exc => raise (ValueError (exn_str exc))) ;;
  lift (_info meta (PyStr artifact_id) (raw_get "session_id" meta)).

(** [delete_file(artifact_id)]. *)
Definition delete_file (artifact_id : string) : M St DeleteFileResult.t :=
  success <- try_except (STORE_delete artifact_id) except_Exception
               (fun exc => raise (ValueError (exn_str exc))) ;;
  ret (DeleteFileResult.Build (truthy success) artifact_id).

(** [copy_file(artifact_id, filename=None, meta=None)]. *)
Definition copy_file (artifact_id : string) (filename : option string)
    (meta : option pydict) : M St CopyFileResult.t :=
  let inp := CopyFileInput.Build artifact_id filename None (default [] meta) in
  nm <- try_except
          (new_id <- STORE_copy_file (CopyFileInput.artifact_id inp)
                       (CopyFileInput.filename inp) None
                       (CopyFileInput.meta inp) ;;
           meta_new <- STORE_metadata new_id ;;
           ret (new_id, meta_new))
          except_Exception
          (fun exc => raise (ValueError (exn_str exc))) ;;
  let new_id := fst nm in
  let meta_new := snd nm in
  info <- lift (_info meta_new (PyStr new_id) (raw_get "session_id" meta_new)) ;;
  ret (CopyFileResult.Build info (CopyFileInput.artifact_id inp) "copy").

(** [ReadFileResult(artifact_id=, content_type="text", content=, encoding=)]:
    [content] is an [Optional[str]] field. *)
Definition ReadFileResult_text (artifact_id : string) (content : pyval)
    (encoding : string) : res ReadFileResult.t :=
  match as_opt_str content with
  | Some c =>
      Ok (ReadFileResult.Build artifact_id "text" c None (Some encoding) None)
  | None => Raise (ValidationError "validation error for ReadFileResult")
  end.

(** [base64.b64encode(content).decode()] and [len(content)] on what the
    store returned. *)
Definition ReadFileResult_binary (artifact_id : string) (content : pyval)
    : res ReadFileResult.t :=
  match content with
  | PyBytes data =>
      Ok (ReadFileResult.Build artifact_id "binary" None
            (Some (b64encode data)) None (Some (Z.of_nat (length data))))
  | _ => Raise (TypeError "a bytes-like object is required")
  end.

(** [read_file(artifact_id, as_text=True, encoding="utf-8")]. *)
Definition read_file (artifact_id : string) (as_text : bool) (encoding : string)
    : M St ReadFileResult.t :=
  content <- try_except (STORE_read_file artifact_id as_text encoding)
               except_Exception
               (fun exc => raise (ValueError (exn_str exc))) ;;
  if as_text then lift (ReadFileResult_text artifact_id content encoding)
  else lift (ReadFileResult_binary artifact_id content).

End Tools.

(** ** The in-memory store of the test suite

    [FakeStore] of [tests/test_artifact_tools.py].  [_objects] is a Python
    dict, kept here as an association list in insertion order; every entry is
    written by [store], so its fields have the types of [store]'s arguments.
    [uuid.uuid4().hex] is an oracle indexed by the number of draws so far. *)

Module FakeStore.

Record obj : Type := Obj {
  o_artifact_id : string;
  o_filename : string;
  o_mime : string;
  o_bytes : Z;
  o_summary : string;
  o_stored_at : string;
  o_session_id : option string;
  o_meta : pydict
}.

(** The dict that [metadata] and the listings hand out. *)
Definition to_raw (o : obj) : raw :=
  <["artifact_id" := PyStr (o_artifact_id o)]>
  (<["filename" := PyStr (o_filename o)]>
  (<["mime" := PyStr (o_mime o)]>
  (<["bytes" := PyInt (o_bytes o)]>
  (<["summary" := PyStr (o_summary o)]>
  (<["stored_at" := PyStr (o_stored_at o)]>
  (<["session_id" := of_opt_str (o_session_id o)]>
  (<["meta" := PyDict (o_meta o)]> ∅))))))).

Record state : Type := State {
  _objects : list (string * obj);
  draws : nat
}.

Definition empty : state := State [] 0.

Fixpoint dict_get (k : string) (d : list (string * obj)) : option obj :=
  match d with
  | [] => None
  | (k', v) :: d' => if String.eqb k k' then Some v else dict_get k d'
  end.

(** [d[k] = v]. *)
Fixpoint dict_set (k : string) (v : obj) (d : list (string * obj))
    : list (string * obj) :=
  match d with
  | [] => [(k, v)]
  | (k', v') :: d' =>
      if String.eqb k k' then (k, v) :: d' else (k', v') :: dict_set k v d'
  end.

(** [d.pop(k, None)]: what is left.  Keys are unique in a dict, so dropping
    every entry under [k] drops the one there is. *)
Fixpoint dict_pop (k : string) (d : list (string * obj))
    : list (string * obj) :=
  match d with
  | [] => []
  | (k', v') :: d' =>
      if String.eqb k k' then dict_pop k d' else (k', v') :: dict_pop k d'
  end.

Section Methods.
Context `{RT : Runtime} (uuid4_hex : nat -> string).

Definition store (data : pybytes) (mime summary filename : string)
    (session_id : option string) (meta : pydict) (st : state)
    : res string * state :=
  let artefact_id := uuid4_hex (draws st) in
  (Ok artefact_id,
   State (dict_set artefact_id
            (Obj artefact_id filename mime (Z.of_nat (length data)) summary
               "2025-06-01T00:00:00Z" session_id meta)
            (_objects st))
         (S (draws st))).

(** [str(x)] of a session id inside the f-string. *)
Definition fmt_session (o : option string) : string :=
  match o with Some s => s | None => "None" end.

(** [old["session_id"] not in (session_id, None)]. *)
Definition foreign_session (old : option string) (session_id : option string)
    : bool :=
  match old with
  | None => false
  | Some s =>
      match session_id with
      | Some s' => negb (String.eqb s s')
      | None => true
      end
  end.

Definition write_file (content filename mime summary : string)
    (session_id : option string) (meta : pydict) (encoding : string)
    (overwrite_artifact_id : option string) (st : state)
    : res string * state :=
  let after_overwrite : res state :=
    match overwrite_artifact_id with
    | Some ow =>
        if truthy (PyStr ow) then
          match dict_get ow (_objects st) with
          | None => Raise (KeyError ow)
          | Some old =>
              if foreign_session (o_session_id old) session_id then
                Raise (ProviderError
                         ("Cross-session overwrite not permitted. "
                          +:+ "Artifact " +:+ ow +:+ " belongs to session '"
                          +:+ fmt_session (o_session_id old)
                          +:+ "', cannot overwrite from session '"
                          +:+ fmt_session session_id +:+ "'."))
              else Ok (State (dict_pop ow (_objects st)) (draws st))
          end
        else Ok st
    | None => Ok st
    end in
  match after_overwrite with
  | Raise e => (Raise e, st)
  | Ok st1 =>
      match str_encode content encoding with
      | Raise e => (Raise e, st1)
      | Ok data => store data mime summary filename session_id meta st1
      end
  end.

Definition metadata (artefact_id : string) (st : state) : res raw * state :=
  match dict_get artefact_id (_objects st) with
  | Some o => (Ok (to_raw o), st)
  | None => (Raise (KeyError artefact_id), st)
  end.

Definition retrieve (artefact_id : string) (st : state)
    : res pybytes * state :=
  (Ok ["d"%byte; "u"%byte; "m"%byte; "m"%byte; "y"%byte], st).

Definition list_by_prefix (session_id prefix : string) (limit : Z)
    (st : state) : res (list raw) * state :=
  (Ok (map to_raw
         (filter (fun o => o_session_id o = Some session_id
                           ∧ starts_with prefix (o_filename o) = true)
            (map snd (_objects st)))),
   st).

Definition get_directory_contents (session_id directory : string)
    (limit : Z) (st : state) : res (list raw) * state :=
  list_by_prefix session_id directory limit st.

Definition presign_short (artefact_id : string) (st : state)
    : res string * state :=
  (Ok ("https://example/" +:+ artefact_id), st).

Definition presign_medium (artefact_id : string) (st : state)
    : res string * state :=
  (Ok ("https://example/medium/" +:+ artefact_id), st).

Definition delete (artefact_id : string) (st : state) : res pyval * state :=
  (Ok (PyBool (match dict_get artefact_id (_objects st) with
               | Some _ => true
               | None => false
               end)),
   State (dict_pop artefact_id (_objects st)) (draws st)).

(** The fake has no [copy_file] and no [read_file]. *)
Definition missing {A} (name : string) (st : state) : res A * state :=
  (Raise (AttributeError ("'FakeStore' object has no attribute '"
                            +:+ name +:+ "'")), st).

Definition backend : STORE.ArtifactStore := {|
  STORE.St := state;
  STORE.store := store;
  STORE.write_file := write_file;
  STORE.metadata := metadata;
  STORE.retrieve := retrieve;
  STORE.list_by_prefix := list_by_prefix;
  STORE.get_directory_contents := get_directory_contents;
  STORE.presign_short := presign_short;
  STORE.presign_medium := presign_medium;
  STORE.delete := delete;
  STORE.copy_file := fun _ _ _ _ => missing "copy_file";
  STORE.read_file := fun _ _ _ => missing "read_file"
|}.
End Methods.

End FakeStore.

(** ** A scripted store

    A test double in the other style: its state is the list of answers still
    to give, and every method hands out the next one, whatever the arguments.
    It stands for any backend on one given run. *)

Module Scripted.

Definition next {A} (proj : reply -> option A) (st : list (res reply))
    : res A * list (res reply) :=
  match st with
  | [] => (Raise (OtherException "StopIteration" "script exhausted"), [])
  | Raise e :: st' => (Raise e, st')
  | Ok r :: st' =>
      match proj r with
      | Some a => (Ok a, st')
      | None => (Raise (TypeError "unexpected kind of answer"), st')
      end
  end.

Definition p_str (r : reply) : option string :=
  match r with Reply_str s => Some s | _ => None end.
Definition p_raw (r : reply) : option raw :=
  match r with Reply_raw m => Some m | _ => None end.
Definition p_raws (r : reply) : option (list raw) :=
  match r with Reply_raws l => Some l | _ => None end.
Definition p_bytes (r : reply) : option pybytes :=
  match r with Reply_bytes b => Some b | _ => None end.
Definition p_val (r : reply) : option pyval :=
  match r with Reply_val v => Some v | _ => None end.

Definition backend : STORE.ArtifactStore := {|
  STORE.St := list (res reply);
  STORE.store := fun _ _ _ _ _ _ => next p_str;
  STORE.write_file := fun _ _ _ _ _ _ _ _ => next p_str;
  STORE.metadata := fun _ => next p_raw;
  STORE.retrieve := fun _ => next p_bytes;
  STORE.list_by_prefix := fun _ _ _ => next p_raws;
  STORE.get_directory_contents := fun _ _ _ => next p_raws;
  STORE.presign_short := fun _ => next p_str;
  STORE.presign_medium := fun _ => next p_str;
  STORE.delete := fun _ => next p_val;
  STORE.copy_file := fun _ _ _ _ => next p_str;
  STORE.read_file := fun _ _ _ => next p_val
|}.

End Scripted.

(** ** A runtime for closed examples

    No ambient session context: the session must come with the request.
    Strings are byte strings here, so the UTF-8 codec is the identity on
    them; any other codec name is unknown. *)

Definition byte_of_ascii (c : ascii) : byte := byte_of (N_of_ascii c).

Instance runtime_plain : Runtime := {|
  validate_session_parameter session_id operation :=
    match session_id with
    | Some s =>
        if truthy (PyStr s) then Ok s
        else Raise (ValueError ("Operation '" +:+ operation
                                  +:+ "' requires a session_id"))
    | None => Raise (ValueError ("Operation '" +:+ operation
                                   +:+ "' requires a session_id"))
    end;
  str_encode content encoding :=
    if String.eqb encoding "utf-8"
    then Ok (map byte_of_ascii (list_ascii_of_string content))
    else Raise (OtherException "LookupError" ("unknown encoding: " +:+ encoding))
|}.

(** The ids the examples draw: [id0], [id1], ... *)
Definition demo_uuid (n : nat) : string :=
  "id" +:+ String (ascii_of_nat (48 + n)) EmptyString.


(** ** Reference definitions used by the statements *)

(** The text after the last ["/"], read off the characters from left to
    right: what "the last path segment" means, independently of [split]. *)
Fixpoint segment_from (acc s : string) : string :=
  match s with
  | EmptyString => acc
  | String c s' =>
      if Ascii.eqb c "/" then segment_from EmptyString s'
      else segment_from (acc +:+ String c EmptyString) s'
  end.

Definition last_segment (s : string) : string := segment_from EmptyString s.







(** ** Sample records for closed examples *)

Definition raw_of (l : list (string * pyval)) : raw := list_to_map l.

(** A record identified by its storage key only, with no session. *)
Definition ex_keyed : raw :=
  raw_of [("key", PyStr "prefix/XYZ"); ("mime", PyStr "text/plain");
          ("bytes", PyInt 3); ("stored_at", PyStr "2025-06-01T00:00:00Z")].


(** A record with its own id and session. *)
Definition ex_owned : raw :=
  raw_of [("artifact_id", PyStr "A1"); ("mime", PyStr "text/plain");
          ("bytes", PyInt 3); ("stored_at", PyStr "2025-06-01T00:00:00Z");
          ("session_id", PyStr "team42")].


(** A backend without presigning that still serves the payload. *)
Definition script_presign_down : list (res reply) :=
  [Raise (OtherException "NotImplementedError" "presign unsupported");
   Ok (Reply_bytes ["h"%byte; "i"%byte])].

(** The test double after one legacy object (no session) has been stored. *)
Definition fake := FakeStore.backend (RT := runtime_plain) demo_uuid.

Definition fake_with_legacy : FakeStore.state :=
  snd (FakeStore.store demo_uuid ["o"%byte; "l"%byte; "d"%byte]
         "text/plain" "legacy" "doc.txt" None [] FakeStore.empty).





Definition script_read_binary : list (res reply) :=
  [Ok (Reply_val (PyBytes ["h"%byte; "e"%byte; "l"%byte; "l"%byte; "o"%byte]))].

Definition script_read_text : list (res reply) :=
  [Ok (Reply_val (PyStr "hello"))].



(** The test double once the legacy object has been deleted. *)
Definition fake_after_delete : FakeStore.state :=
  final (delete_file (BK := fake) "id0" fake_with_legacy).


(** What the test double holds once [write_file] has put a file into a
    session, as in [test_write_and_list_session]. *)
Definition fake_with_hello : FakeStore.state :=
  final (write_file (PY := pydantic_strict) (BK := fake)
           "hello world" "hello.txt" (Some "abc123") "text/plain" "demo"
           (Some []) "utf-8" None FakeStore.empty).


(** ** Vocabulary of the statements on [write_file] *)

(** The conflict the handler recognises, which is the test of its
    [except ProviderError] branch ([legacy_conflict]) read as a proposition
    on the exception: the overwrite target is truthy, the exception is a
    provider error, and its message contains both
    [Cross-session overwrite not permitted] and [belongs to session 'None'].
    It is a test on the text of the message, not on the owner of the
    object: see [owned_by_nobody] for the latter. *)
Definition recognised_conflict (overwrite_artifact_id : option string)
    (e : exn) : Prop :=
  truthy_opt overwrite_artifact_id = true
  /\ exists msg,
       e = ProviderError msg
       /\ str_contains "Cross-session overwrite not permitted" msg = true
       /\ str_contains "belongs to session 'None'" msg = true.

(** How an error of the overwrite stage reaches the caller: a provider error
    as [ValueError(str(exc))], anything else as it is. *)
Definition surfaced (e : exn) : exn :=
  if except_ProviderError e then ValueError (exn_str e) else e.

(** Neither a delete nor a fresh store among the effects. *)
Definition no_delete_no_store (efs : list effect) : Prop :=
  forall ef, In ef efs -> is_delete_call ef = false /\ is_store_call ef = false.

(** In the test double: the object stored under [id] has no owning session
    (the null sentinel of the specification). *)
Definition owned_by_nobody (st : FakeStore.state) (id : string) : Prop :=
  exists old, FakeStore.dict_get id (FakeStore._objects st) = Some old
              /\ FakeStore.o_session_id old = None.



(** Scripts for the recovery path: the overwrite is refused because the old
    object has no session; the delete of the old object either works or
    fails; the fresh store, its metadata and the presigned URL follow. *)
Definition conflict_message : string :=
  "Cross-session overwrite not permitted. Artifact A1 belongs to session 'None', cannot overwrite from session 'team42'.".

Definition ex_fresh : raw :=
  raw_of [("artifact_id", PyStr "N9"); ("filename", PyStr "doc.txt");
          ("mime", PyStr "text/plain"); ("bytes", PyInt 3);
          ("summary", PyStr "overwrite");
          ("stored_at", PyStr "2025-06-01T00:00:00Z");
          ("session_id", PyStr "team42"); ("meta", PyDict [])].

Definition script_recovery (delete_answer : res reply) : list (res reply) :=
  [Raise (ProviderError conflict_message);
   delete_answer;
   Ok (Reply_str "N9");
   Ok (Reply_raw ex_fresh);
   Ok (Reply_str "https://example/N9")].

Definition script_delete_fails : list (res reply) :=
  script_recovery (Raise (OtherException "ConnectionError" "backend away")).

Definition script_delete_works : list (res reply) :=
  script_recovery (Ok (Reply_val (PyBool true))).

(** The overwrite is refused for another reason. *)
Definition script_other_error : list (res reply) :=
  [Raise (ProviderError "Bucket unavailable")].


(** The test double holding one object filed under a session whose name is
    the string ["None"]. *)
Definition fake_with_session_named_None : FakeStore.state :=
  snd (FakeStore.store demo_uuid ["o"%byte; "l"%byte; "d"%byte]
         "text/plain" "theirs" "doc.txt" (Some "None") [] FakeStore.empty).


(** ** The remaining tools: [upload_file], [update_metadata], [move_file] *)

(** [UploadFileResult(ArtifactInfo)]: the inherited fields are [info]. *)
Module UploadFileResult.
Record t : Type := Build {
  info : ArtifactInfo.t;
  download_url : option string;
  operation : string
}.
End UploadFileResult.

(** [MoveFileResult(ArtifactInfo)]: the inherited fields are [info]. *)
Module MoveFileResult.
Record t : Type := Build {
  info : ArtifactInfo.t;
  operation : string
}.
End MoveFileResult.

(** [base64.b64decode(s)] of the Python library, on any string: the bytes,
    or the exception it raises. *)
Class Base64 : Type := {
  b64decode_py : string -> res pybytes
}.

(** The two further methods of [ArtifactStore] these tools use.  They are
    run on the backend state like the others; their calls are not among the
    recorded effects, which list the methods of [STORE.ArtifactStore]. *)
Module STOREX.
Class MetadataStore `{BK : STORE.ArtifactStore} : Type := {
  (* update_metadata(artifact_id, new_meta=, merge=) *)
  update_metadata : string -> pydict -> bool ->
                    STORE.St -> res pyval * STORE.St;
  (* move_file(artifact_id, new_filename=, new_meta=) -> Dict *)
  move_file : string -> option string -> pydict ->
              STORE.St -> res raw * STORE.St
}.
End STOREX.

(** A store method run without a record among the effects. *)
Definition unrecorded {S A} (op : S -> res A * S) : M S A :=
  fun st => match op st with (r, st') => Outcome r st' [] end.

Section MoreTools.
Context `{PY : Pydantic} `{RT : Runtime} `{B64 : Base64}
  `{BK : STORE.ArtifactStore} `{BX : !STOREX.MetadataStore}.

Local Open Scope py_scope.

(** [upload_file(data_base64, filename, mime, session_id=None, summary="",
    meta=None)]. *)
Definition upload_file (data_base64 filename mime : string)
    (session_id summary : option string) (meta : option pydict)
    : M STORE.St UploadFileResult.t :=
  sess <- try_except
            (lift (validate_session_parameter session_id "upload_file"))
            except_ValidationError
            (fun exc => raise (ValueError ("Invalid upload input: "
                                             +:+ exn_str exc))) ;;
  let inp_summary := default "" summary in
  let inp_meta := default [] meta in
  content <- try_except
               (lift (b64decode_py data_base64))
               except_Exception
               (fun exc => raise (ValueError ("data_base64 not valid base64: "
                                                +:+ exn_str exc))) ;;
  ai <- _store_and_build_info content filename mime inp_summary sess inp_meta ;;
  let art_id := fst ai in
  let info := snd ai in
  url <- try_except
           (u <- STORE_presign_short art_id ;; ret (Some u))
           except_Exception
           (fun _ => ret None) ;;
  ret (UploadFileResult.Build info url "create").

(** [update_metadata(artifact_id, meta)]; [UpdateMetadataResult] has the
    fields of [ArtifactInfo] and no other. *)
Definition update_metadata (artifact_id : string) (meta : pydict)
    : M STORE.St ArtifactInfo.t :=
  meta_full <- try_except
                 (unrecorded (STOREX.update_metadata artifact_id meta true) ;;;
                  STORE_metadata artifact_id)
                 except_Exception
                 (fun exc => raise (ValueError (exn_str exc))) ;;
  lift (_info meta_full (PyStr artifact_id) (raw_get "session_id" meta_full)).

(** [move_file(artifact_id, new_filename=None, new_meta=None)]. *)
Definition move_file (artifact_id : string) (new_filename : option string)
    (new_meta : option pydict) : M STORE.St MoveFileResult.t :=
  info <- try_except
            (updated_meta <- unrecorded
                               (STOREX.move_file artifact_id new_filename
                                  (default [] new_meta)) ;;
             lift (_info updated_meta (PyStr artifact_id)
                     (raw_get "session_id" updated_meta)))
            except_Exception
            (fun exc => raise (ValueError (exn_str exc))) ;;
  ret (MoveFileResult.Build info "move").

End MoreTools.

(** The scripted double answers the two further methods from its script as
    well; the test double has neither. *)
Instance scripted_more : @STOREX.MetadataStore Scripted.backend :=
  @STOREX.Build_MetadataStore Scripted.backend
    (fun _ _ _ => Scripted.next Scripted.p_val)
    (fun _ _ _ => Scripted.next Scripted.p_raw).

(** A decoder for closed examples.  It takes padded RFC 4648 text only;
    Python's is laxer (it skips characters outside the alphabet), and the two
    agree on the texts of the examples. *)
Instance base64_strict : Base64 := {|
  b64decode_py s :=
    match b64decode s with
    | Some data => Ok data
    | None => Raise (OtherException "binascii.Error" "Incorrect padding")
    end
|}.


(** ** Vocabulary of the further statements *)

(** No ["/"] in the string. *)
Fixpoint no_slash (s : string) : bool :=
  match s with
  | EmptyString => true
  | String c s' => negb (Ascii.eqb c "/") && no_slash s'
  end.

(** A record that cannot be normalised: it has an id but no [mime]. *)
Definition ex_no_mime : raw :=
  raw_of [("artifact_id", PyStr "A1"); ("bytes", PyInt 3);
          ("stored_at", PyStr "2025-06-01T00:00:00Z")].

(** Every entry of the double's [_objects] sits under its own id. *)
Definition keyed (st : FakeStore.state) : Prop :=
  forall k o, In (k, o) (FakeStore._objects st) -> FakeStore.o_artifact_id o = k.

(** More sample records and scripts. *)
Definition ex_keyless : raw :=
  raw_of [("mime", PyStr "text/plain"); ("bytes", PyInt 3);
          ("stored_at", PyStr "2025-06-01T00:00:00Z")].

Definition script_written_no_url : list (res reply) :=
  [Ok (Reply_str "N9"); Ok (Reply_raw ex_fresh);
   Raise (OtherException "NotImplementedError" "presign unsupported")].

Definition script_updated : list (res reply) :=
  [Ok (Reply_val PyNone); Ok (Reply_raw ex_owned)].

(** The test double holding one object of session ["alice"]. *)
Definition fake_with_alice : FakeStore.state :=
  snd (FakeStore.store demo_uuid ["o"%byte; "l"%byte; "d"%byte]
         "text/plain" "hers" "doc.txt" (Some "alice") [] FakeStore.empty).


(** * Properties *)

(** ** Strings and base64 *)

(** [repr] on a plain key, on a text with a single quote, and on a control
    character. *)
Example str_repr_samples :
  exn_str (KeyError "mime") = "'mime'"
  /\ str_repr "it's" = String "034" ("it's" +:+ String "034" EmptyString)
  /\ str_repr (String "010" "x") = "'\nx'".
Proof. repeat split. Qed.

Lemma str_split_cons sep s : exists h t, str_split sep s = h :: t.
Proof.
  destruct s as [|c s]; simpl; [by eauto|].
  destruct (Ascii.eqb c sep); [by eauto|].
  destruct (str_split sep s); by eauto.
Qed.

Lemma py_last_cons {A} (x y : A) l : py_last (x :: y :: l) = py_last (y :: l).
Proof.
  unfold py_last. simpl.
  destruct (List.rev l ++ [y]) as [|z zs] eqn:E.
  - by destruct (List.rev l).
  - reflexivity.
Qed.

Lemma string_app_assoc (a b c : string) : (a +:+ b) +:+ c = a +:+ (b +:+ c).
Proof.
  induction a as [|x a IH]; [done|].
  change (String x ((a +:+ b) +:+ c) = String x (a +:+ (b +:+ c))).
  by rewrite IH.
Qed.

Lemma string_app_empty (a : string) : a +:+ EmptyString = a.
Proof.
  induction a as [|x a IH]; [done|].
  change (String x (a +:+ EmptyString) = String x a).
  by rewrite IH.
Qed.

Lemma segment_from_split s : forall acc,
  exists h t, str_split "/" s = h :: t
              /\ py_last ((acc +:+ h) :: t) = Ok (segment_from acc s).
Proof.
  induction s as [|c s IH]; intros acc.
  - exists EmptyString, []. split; [done|]. cbn. by rewrite string_app_empty.
  - cbn [str_split segment_from]. destruct (Ascii.eqb c "/") eqn:Ec.
    + destruct (IH EmptyString) as (h & t & Hs & Hl).
      exists EmptyString, (str_split "/" s). split; [done|].
      rewrite Hs, py_last_cons. exact Hl.
    + destruct (IH (acc +:+ String c EmptyString)) as (h & t & Hs & Hl).
      rewrite Hs. exists (String c h), t. split; [done|].
      rewrite <- Hl. by rewrite string_app_assoc.
Qed.

(** [s.split("/")[-1]] is the text after the last slash. *)
Lemma split_last_segment s :
  py_last (str_split "/" s) = Ok (last_segment s).
Proof.
  destruct (segment_from_split s EmptyString) as (h & t & Hs & Hl).
  by rewrite Hs.
Qed.

Lemma list_ind3 {A} (P : list A -> Prop) :
  P [] -> (forall a, P [a]) -> (forall a b, P [a; b]) ->
  (forall a b c l, P l -> P (a :: b :: c :: l)) ->
  forall l, P l.
Proof.
  intros H0 H1 H2 H3.
  assert (forall l, P l /\ (forall a, P (a :: l)) /\ (forall a b, P (a :: b :: l)))
    as H.
  { induction l as [|x l (IH0 & IH1 & IH2)]; [by auto|].
    split; [by apply IH1|]. split; [by intros; apply IH2|].
    intros a b. by apply H3. }
  intros l. apply H.
Qed.

Lemma sextet_cases (n : N) : (n < 64)%N ->
  exists k, n = N.of_nat k /\ (k < 64)%nat.
Proof. intros H. exists (N.to_nat n). split; lia. Qed.

Lemma b64_index_char n : (n < 64)%N -> b64_index (b64_char n) = Some n.
Proof.
  intros H. destruct (sextet_cases n H) as (k & -> & Hk).
  do 64 (destruct k as [|k]; [reflexivity|]). lia.
Qed.

Lemma b64_char_not_pad n : (n < 64)%N -> Ascii.eqb (b64_char n) "=" = false.
Proof.
  intros H. destruct (sextet_cases n H) as (k & -> & Hk).
  do 64 (destruct k as [|k]; [reflexivity|]). lia.
Qed.

Lemma byte_of_to_N b : byte_of (Byte.to_N b) = b.
Proof. unfold byte_of. by rewrite Byte.of_to_N. Qed.

Lemma byte_lt b : (Byte.to_N b < 256)%N.
Proof. pose proof (Byte.to_N_bounded b). lia. Qed.

Ltac n_arith :=
  repeat match goal with
    | b : byte |- _ =>
        let H := fresh in pose proof (byte_lt b) as H;
        generalize dependent (Byte.to_N b); clear b; intros
    end;
  zify; Z.to_euclidean_division_equations; lia.

Lemma b64_group3 a b c :
  let n := (Byte.to_N a * 65536 + Byte.to_N b * 256 + Byte.to_N c)%N in
  let s0 := (n / 262144)%N in
  let s1 := ((n / 4096) mod 64)%N in
  let s2 := ((n / 64) mod 64)%N in
  let s3 := (n mod 64)%N in
  (s0 < 64 /\ s1 < 64 /\ s2 < 64 /\ s3 < 64
   /\ ((s0 * 64 + s1) * 64 + s2) * 64 + s3 = n
   /\ n / 65536 = Byte.to_N a
   /\ (n / 256) mod 256 = Byte.to_N b
   /\ n mod 256 = Byte.to_N c)%N.
Proof. cbv zeta. repeat split; n_arith. Qed.

Lemma b64_group2 a b :
  let n := (Byte.to_N a * 65536 + Byte.to_N b * 256)%N in
  let s0 := (n / 262144)%N in
  let s1 := ((n / 4096) mod 64)%N in
  let s2 := ((n / 64) mod 64)%N in
  (s0 < 64 /\ s1 < 64 /\ s2 < 64
   /\ ((s0 * 64 + s1) * 64 + s2) / 1024 = Byte.to_N a
   /\ (((s0 * 64 + s1) * 64 + s2) / 4) mod 256 = Byte.to_N b)%N.
Proof. cbv zeta. repeat split; n_arith. Qed.

Lemma b64_group1 a :
  let n := (Byte.to_N a * 65536)%N in
  let s0 := (n / 262144)%N in
  let s1 := ((n / 4096) mod 64)%N in
  (s0 < 64 /\ s1 < 64 /\ (s0 * 64 + s1) / 16 = Byte.to_N a)%N.
Proof. cbv zeta. repeat split; n_arith. Qed.

(** Decoding undoes encoding, for every payload. *)
Lemma b64decode_b64encode data : b64decode (b64encode data) = Some data.
Proof.
  induction data as [|a|a b|a b c l IH] using list_ind3.
  - reflexivity.
  - destruct (b64_group1 a) as (H0 & H1 & Ha).
    cbn [b64encode b64decode].
    rewrite (b64_index_char _ H0), (b64_index_char _ H1).
    cbn [Ascii.eqb Bool.eqb]. by rewrite Ha, byte_of_to_N.
  - destruct (b64_group2 a b) as (H0 & H1 & H2 & Ha & Hb).
    cbn [b64encode b64decode].
    rewrite (b64_index_char _ H0), (b64_index_char _ H1),
      (b64_char_not_pad _ H2), (b64_index_char _ H2).
    cbn [Ascii.eqb Bool.eqb]. by rewrite Ha, Hb, !byte_of_to_N.
  - destruct (b64_group3 a b c) as (H0 & H1 & H2 & H3 & Hn & Ha & Hb & Hc).
    cbn [b64encode b64decode].
    rewrite (b64_index_char _ H0), (b64_index_char _ H1),
      (b64_char_not_pad _ H2), (b64_index_char _ H2),
      (b64_char_not_pad _ H3), (b64_index_char _ H3), IH.
    by rewrite Hn, Ha, Hb, Hc, !byte_of_to_N.
Qed.

(** ** The descriptor normaliser *)

Section Normalizer.
Context `{PY : Pydantic}.

Lemma as_opt_str_of_opt_str (o : option string) :
  as_opt_str (of_opt_str o) = Some o.
Proof. destruct o as [s|]; [|done]. cbn. by rewrite as_str_str. Qed.



(** What a successful normalisation says about its inputs. *)
Lemma _info_inv meta fallback_id fallback_session_id d :
  _info meta fallback_id fallback_session_id = Ok d ->
  exists v, resolve_art_id meta fallback_id = Ok v
            /\ truthy v = true
            /\ as_str v = Some (ArtifactInfo.artifact_id d)
            /\ as_opt_str (py_or (raw_get "session_id" meta) fallback_session_id)
               = Some (ArtifactInfo.session_id d).
Proof.
  unfold _info, ArtifactInfo_model_validate.
  destruct (resolve_art_id meta fallback_id) as [v|e]; [|done].
  destruct (truthy v) eqn:Hv; [|done]. cbn [negb].
  destruct (raw_item "mime" meta); [|done].
  destruct (raw_item "bytes" meta); [|done].
  destruct (raw_item "stored_at" meta); [|done].
  repeat match goal with
         | |- context [match ?x with Some _ => _ | None => _ end] =>
             destruct x eqn:?; [|done]
         end.
  intros [= <-]. cbn. eauto.
Qed.

End Normalizer.




(** With no id source at all, no descriptor: the [MissingIdentifier] case. *)
Example no_id_source_raises :
  _info (PY := pydantic_strict)
    (raw_of [("mime", PyStr "text/plain"); ("bytes", PyInt 3);
             ("stored_at", PyStr "2025-06-01T00:00:00Z")])
    PyNone PyNone
  = Raise (KeyError "artifact_id").
Proof. reflexivity. Qed.



(** The raw session wins over the fallback. *)
Example raw_session_kept :
  ArtifactInfo.session_id
    <$> (match _info (PY := pydantic_strict) ex_owned PyNone (PyStr "other") with
         | Ok d => Some d
         | Raise _ => None
         end)
  = Some (Some "team42").
Proof. reflexivity. Qed.

(** ** The delivery selector and the simple handlers *)

(** Stepping through a handler: the store wrappers are opened, and [cbn]
    runs the handler up to the next answer of the store. *)
Ltac open_store :=
  unfold STORE_store, STORE_write_file, STORE_metadata, STORE_retrieve,
    STORE_list_by_prefix, STORE_get_directory_contents, STORE_presign_short,
    STORE_presign_medium, STORE_delete, STORE_copy_file, STORE_read_file in *.

Ltac run := open_store; cbn.

(** C4 ([_presign_or_inline]).  Any result of the delivery selector has
    exactly one of [download_url] and [data_base64] set.  When presigning is
    requested and [presign_medium] raises, the exception is logged at INFO
    level and the call continues as the inline path does from there: its
    outcome is that of the inline retrieval, so with a retrievable payload
    the result is [download_url = None] and [data_base64] the base64 text of
    the payload. *)
Theorem C4_delivery_exactly_one `{BK : STORE.ArtifactStore}
    (artifact_id : string) (presign : bool) (st : STORE.St) :
  let o := _presign_or_inline artifact_id presign st in
  (forall r, result o = Ok r ->
             (is_Some (fst r) /\ snd r = None)
             \/ (fst r = None /\ is_Some (snd r)))
  /\ (forall e st1,
        presign = true ->
        STORE.presign_medium artifact_id st = (Raise e, st1) ->
        result o = result (inline_payload artifact_id st1)
        /\ In (Logged INFO ("Presign unavailable – falling back to inline: "
                              +:+ exn_str e)) (effects o)
        /\ (forall data st2,
              STORE.retrieve artifact_id st1 = (Ok data, st2) ->
              result o = Ok (None, Some (b64encode data)))).
Proof.
  cbv zeta. unfold _presign_or_inline, inline_payload. split.
  - intros r. destruct presign; run.
    + destruct (STORE.presign_medium artifact_id st) as [[url|e] st1]; cbn.
      * intros [= <-]. left. cbn. eauto.
      * destruct (STORE.retrieve artifact_id st1) as [[data|e'] st2]; cbn;
          [|done].
        intros [= <-]. right. cbn. eauto.
    + destruct (STORE.retrieve artifact_id st) as [[data|e'] st2]; cbn; [|done].
      intros [= <-]. right. cbn. eauto.
  - intros e st1 -> Hp. run. rewrite Hp. cbn.
    destruct (STORE.retrieve artifact_id st1) as [[data|e'] st2]; cbn.
    + split; [done|]. split; [by auto|]. by intros ? ? [= <- <-].
    + split; [done|]. split; [by auto|]. done.
Qed.

Lemma C4_delivery_exactly_one_witness :
  result (_presign_or_inline (BK := Scripted.backend) "A1" true
            script_presign_down)
  = Ok (None, Some "aGk=").
Proof.
  destruct (C4_delivery_exactly_one (BK := Scripted.backend) "A1" true
              script_presign_down) as [_ H].
  destruct (H _ _ eq_refl eq_refl) as (_ & _ & Hd).
  exact (Hd _ _ eq_refl).
Defined.

(** C6 ([delete_file]).  When the backend answers the delete of an id with a
    falsy value (nothing was there to delete), [delete_file] returns
    [success = false] with the requested id echoed; it raises nothing, and
    the delete is the only call it makes. *)
Theorem C6_delete_missing_id `{BK : STORE.ArtifactStore}
    (artifact_id : string) (st st1 : STORE.St) (v : pyval) :
  STORE.delete artifact_id st = (Ok v, st1) ->
  truthy v = false ->
  delete_file artifact_id st
  = Outcome (Ok (DeleteFileResult.Build false artifact_id)) st1
      [Called (Call_delete artifact_id) (Ok (Reply_val v))].
Proof.
  intros Hd Hv. unfold delete_file. run. rewrite Hd. cbn. by rewrite Hv.
Qed.

(** In the test double an absent id is answered with [False], and an id is
    absent once it has been deleted. *)
Lemma FakeStore_delete_absent id st :
  FakeStore.dict_get id (FakeStore._objects st) = None ->
  fst (FakeStore.delete id st) = Ok (PyBool false).
Proof. intros H. unfold FakeStore.delete. by rewrite H. Qed.

Lemma FakeStore_get_after_pop id d :
  FakeStore.dict_get id (FakeStore.dict_pop id d) = None.
Proof.
  induction d as [|[k v] d IH]; [done|]. cbn.
  destruct (String.eqb id k) eqn:E; [done|]. cbn. by rewrite E.
Qed.

(** Deleting the legacy object and deleting it again. *)
Lemma C6_delete_missing_id_witness :
  result (delete_file (BK := fake) "id0" fake_with_legacy)
  = Ok (DeleteFileResult.Build true "id0")
  /\ delete_file (BK := fake) "id0" fake_after_delete
     = Outcome (Ok (DeleteFileResult.Build false "id0")) fake_after_delete
         [Called (Call_delete "id0") (Ok (Reply_val (PyBool false)))].
Proof.
  split; [reflexivity|].
  apply (C6_delete_missing_id (BK := fake) "id0" fake_after_delete
           fake_after_delete (PyBool false)); reflexivity.
Defined.




(** C10 ([read_file]).  In binary mode every result is
    [content_type = "binary"], [content] and [encoding] unset,
    [content_base64] the base64 text of the payload the store returned and
    [bytes] its length, so that decoding [content_base64] gives back that
    payload, of exactly [bytes] bytes.  In text mode every result is
    [content_type = "text"] with [encoding] the requested one and
    [content_base64] and [bytes] unset, and [content] is the text the store
    returned. *)
Theorem C10_read_file_modes `{PY : Pydantic} `{BK : STORE.ArtifactStore}
    (artifact_id encoding : string) (st : STORE.St) :
  (forall r, result (read_file artifact_id false encoding st) = Ok r ->
     exists data st1,
       STORE.read_file artifact_id false encoding st = (Ok (PyBytes data), st1)
       /\ r = ReadFileResult.Build artifact_id "binary" None
                (Some (b64encode data)) None (Some (Z.of_nat (length data)))
       /\ b64decode (b64encode data) = Some data)
  /\ (forall r, result (read_file artifact_id true encoding st) = Ok r ->
        ReadFileResult.content_type r = "text"
        /\ ReadFileResult.encoding r = Some encoding
        /\ ReadFileResult.content_base64 r = None
        /\ ReadFileResult.bytes r = None
        /\ forall s st1,
             STORE.read_file artifact_id true encoding st = (Ok (PyStr s), st1) ->
             ReadFileResult.content r = Some s).
Proof.
  split; intros r; unfold read_file; run.
  - destruct (STORE.read_file artifact_id false encoding st)
      as [[content|e] st1]; cbn; [|done].
    destruct content; cbn; try done.
    intros [= <-]. eexists _, _. split; [reflexivity|]. split; [done|].
    apply b64decode_b64encode.
  - destruct (STORE.read_file artifact_id true encoding st)
      as [[content|e] st1]; cbn; [|done].
    unfold ReadFileResult_text.
    destruct (as_opt_str content) as [c|] eqn:Hc; cbn; [|done].
    intros [= <-]. cbn. repeat (split; [done|]).
    intros s st1' [= -> <-]. cbn in Hc. rewrite as_str_str in Hc.
    cbn in Hc. congruence.
Qed.

Lemma C10_read_file_modes_witness :
  result (read_file (PY := pydantic_strict) (BK := Scripted.backend)
            "A1" false "utf-8" script_read_binary)
  = Ok (ReadFileResult.Build "A1" "binary" None (Some "aGVsbG8=") None (Some 5%Z))
  /\ b64decode "aGVsbG8="
     = Some ["h"%byte; "e"%byte; "l"%byte; "l"%byte; "o"%byte]
  /\ result (read_file (PY := pydantic_strict) (BK := Scripted.backend)
               "A1" true "utf-8" script_read_text)
     = Ok (ReadFileResult.Build "A1" "text" (Some "hello") None (Some "utf-8")
             None).
Proof.
  split; [reflexivity|]. split; [|reflexivity].
  destruct (C10_read_file_modes (PY := pydantic_strict)
              (BK := Scripted.backend) "A1" "utf-8" script_read_binary)
    as [H _].
  destruct (H _ eq_refl) as (data & st1 & Hs & _ & Hd).
  injection Hs as <- _. exact Hd.
Defined.

(** ** Read paths and the session of the descriptor *)

Lemma map_res_In {A B} (f : A -> res B) xs ys y :
  map_res f xs = Ok ys -> In y ys -> exists x, In x xs /\ f x = Ok y.
Proof.
  revert ys. induction xs as [|x xs IH]; intros ys; cbn.
  - by intros [= <-] [].
  - destruct (f x) as [y0|e] eqn:Hf; [|done].
    destruct (map_res f xs) as [ys0|e]; [|done]. cbn.
    intros [= <-] [<-|Hin]; [by eauto|].
    destruct (IH _ eq_refl Hin) as (x' & Hx & Hy). eauto.
Qed.

Lemma _info_session_with_fallback `{PY : Pydantic} meta fallback_id sess d :
  _info meta fallback_id (PyStr sess) = Ok d ->
  ArtifactInfo.session_id d <> None.
Proof.
  intros Hd. apply _info_inv in Hd as (_ & _ & _ & _ & Hs).
  unfold py_or in Hs.
  destruct (truthy (raw_get "session_id" meta)) eqn:Ht.
  - destruct (raw_get "session_id" meta); try done; cbn in Hs;
      destruct (as_str _); cbn in Hs; congruence.
  - cbn in Hs. rewrite as_str_str in Hs. cbn in Hs. congruence.
Qed.

(** The listings pass the session of the lookup as fallback: no listed
    descriptor has a null session. *)
Lemma list_session_files_session `{PY : Pydantic} `{RT : Runtime}
    `{BK : STORE.ArtifactStore} session_id prefix st r d :
  result (list_session_files session_id prefix st) = Ok r ->
  In d (ListSessionFilesResult.artifacts r) ->
  ArtifactInfo.session_id d <> None.
Proof.
  unfold list_session_files. run.
  destruct (validate_session_parameter session_id "list_session_files")
    as [sess|e]; cbn; [|by destruct (except_ValidationError e)].
  destruct (STORE.list_by_prefix sess (default "" prefix) 1000 st)
    as [[metas|e] st1]; cbn; [|done].
  destruct (map_res _ metas) as [infos|e] eqn:Hm; cbn; [|done].
  intros [= <-] Hin. cbn in Hin.
  destruct (map_res_In _ _ _ _ Hm Hin) as (m & _ & Hi).
  by eapply _info_session_with_fallback.
Qed.

Lemma list_directory_session `{PY : Pydantic} `{RT : Runtime}
    `{BK : STORE.ArtifactStore} directory session_id st r d :
  result (list_directory directory session_id st) = Ok r ->
  In d (ListDirectoryResult.artifacts r) ->
  ArtifactInfo.session_id d <> None.
Proof.
  unfold list_directory. run.
  destruct (validate_session_parameter session_id "list_directory")
    as [sess|e]; cbn; [|by destruct (except_ValidationError e)].
  destruct (STORE.get_directory_contents sess directory 1000 st)
    as [[metas|e] st1]; cbn; [|done].
  destruct (map_res _ metas) as [infos|e] eqn:Hm; cbn; [|done].
  intros [= <-] Hin. cbn in Hin.
  destruct (map_res_In _ _ _ _ Hm Hin) as (m & _ & Hi).
  by eapply _info_session_with_fallback.
Qed.

(** [get_metadata] and [download_file] pass the record's own [session_id] as
    fallback: on a record without session the descriptor has none either. *)
Lemma get_metadata_session_null `{PY : Pydantic} `{BK : STORE.ArtifactStore}
    artifact_id st m st1 d :
  STORE.metadata artifact_id st = (Ok m, st1) ->
  raw_get "session_id" m = PyNone ->
  result (get_metadata artifact_id st) = Ok d ->
  ArtifactInfo.session_id d = None.
Proof.
  intros Hm Hs. unfold get_metadata. run. rewrite Hm. cbn.
  destruct (_info m (PyStr artifact_id) (raw_get "session_id" m)) as [d'|e]
    eqn:Hi; cbn; [|done].
  intros [= <-]. apply _info_inv in Hi as (_ & _ & _ & _ & Hi).
  rewrite Hs in Hi. cbn in Hi. congruence.
Qed.

(** C7 (read paths), at the failing input.  The test double holds one legacy
    object, stored without session.  [get_metadata] and [download_file] on
    its id hand [_info] the record's own [session_id], which is [None], as
    fallback, and the descriptor they return has [session_id = None]. *)
Theorem C7_read_paths_legacy_session :
  raw_get "session_id" (FakeStore.to_raw
                          (FakeStore.Obj "id0" "doc.txt" "text/plain" 3 "legacy"
                             "2025-06-01T00:00:00Z" None [])) = PyNone
  /\ result (get_metadata (PY := pydantic_strict) (BK := fake) "id0"
               fake_with_legacy)
     = Ok (ArtifactInfo.Build "id0" (Some "doc.txt") "text/plain" 3
             (Some "legacy") "2025-06-01T00:00:00Z" None [])
  /\ result (download_file (PY := pydantic_strict) (BK := fake) "id0" true
               fake_with_legacy)
     = Ok (DownloadFileResult.Build
             (ArtifactInfo.Build "id0" (Some "doc.txt") "text/plain" 3
                (Some "legacy") "2025-06-01T00:00:00Z" None [])
             (Some "https://example/medium/id0") None).
Proof. repeat split; reflexivity. Qed.

(** ** [write_file] and the overwrite recovery *)

Lemma after_nil {S A} (o : outcome S A) : after [] o = o.
Proof. by destruct o. Qed.

Lemma result_after {S A} ef (o : outcome S A) : result (after ef o) = result o.
Proof. by destruct o. Qed.

Lemma effects_after {S A} ef (o : outcome S A) :
  effects (after ef o) = ef ++ effects o.
Proof. by destruct o. Qed.

Lemma final_after {S A} ef (o : outcome S A) : final (after ef o) = final o.
Proof. by destruct o. Qed.

Lemma bind_outcome_spec {S A B} (o : outcome S A) (f : A -> M S B) :
  match result o with
  | Ok a =>
      result (bind_outcome o f) = result (f a (final o))
      /\ final (bind_outcome o f) = final (f a (final o))
      /\ effects (bind_outcome o f) = effects o ++ effects (f a (final o))
  | Raise e => bind_outcome o f = Outcome (Raise e) (final o) (effects o)
  end.
Proof.
  destruct o as [[a|e] st ef]; cbn; [|done].
  by rewrite result_after, final_after, effects_after.
Qed.

Section WriteFile.
Context `{PY : Pydantic} `{RT : Runtime} `{BK : STORE.ArtifactStore}.
Variables (content filename : string) (session_id : option string)
  (mime summary : string) (meta : option pydict) (encoding : string)
  (overwrite_artifact_id : option string) (sess : string).
Hypothesis Hsess : validate_session_parameter session_id "write_file" = Ok sess.

#[local] Abbreviation inp :=
  (write_input content filename sess mime summary meta encoding
     overwrite_artifact_id).

#[local] Abbreviation finish := (write_result overwrite_artifact_id).

Lemma write_file_unfold st :
  write_file content filename session_id mime summary meta encoding
    overwrite_artifact_id st
  = bind_outcome
      (try_outcome (write_attempt inp sess st) except_ProviderError
         (overwrite_fallback inp sess overwrite_artifact_id))
      finish.
Proof.
  unfold write_file. cbn. rewrite Hsess. cbn. apply after_nil.
Qed.

(** The normal attempt talks to the store through [write_file] and
    [metadata] only. *)
Lemma write_attempt_effects st :
  no_delete_no_store (effects (write_attempt inp sess st)).
Proof.
  unfold write_attempt. run.
  destruct (STORE.write_file _ _ _ _ _ _ _ _ st) as [[art_id|e] st1]; cbn.
  2: { by intros ef [<-|[]]. }
  destruct (STORE.metadata art_id st1) as [[m|e] st2]; cbn.
  2: { by intros ef [<-|[<-|[]]]. }
  destruct (_info m (PyStr art_id) (PyStr sess)); cbn;
    by intros ef [<-|[<-|[]]].
Qed.


Lemma finish_result ai st r :
  result (finish ai st) = Ok r ->
  WriteFileResult.info r = snd ai
  /\ WriteFileResult.operation r
     = (if truthy_opt overwrite_artifact_id then "overwrite" else "create").
Proof.
  unfold finish, write_result. run.
  destruct (STORE.presign_short ai.1 st) as [[u|e] st1]; cbn;
    by intros [= <-].
Qed.

Lemma finish_effects ai st :
  no_delete_no_store (effects (finish ai st)).
Proof.
  unfold finish, write_result. run.
  destruct (STORE.presign_short ai.1 st) as [[u|e] st1]; cbn;
    by intros ef [<-|[]].
Qed.



Lemma no_delete_existsb efs :
  no_delete_no_store efs -> existsb is_delete_call efs = false.
Proof.
  intros H. induction efs as [|ef efs IH]; [done|]. cbn.
  destruct (H ef (or_introl eq_refl)) as [-> _]. cbn.
  apply IH. intros ef' Hin. apply H. by right.
Qed.

Lemma no_delete_no_store_app efs efs' :
  no_delete_no_store efs -> no_delete_no_store efs' ->
  no_delete_no_store (efs ++ efs').
Proof.
  intros H H' ef Hin. apply in_app_or in Hin as [Hin|Hin]; auto.
Qed.

Lemma legacy_conflict_spec msg :
  legacy_conflict overwrite_artifact_id msg = true
  <-> recognised_conflict overwrite_artifact_id (ProviderError msg).
Proof.
  unfold legacy_conflict, recognised_conflict. rewrite !andb_true_iff. split.
  - intros [[Ht H1] H2]. split; [done|]. by exists msg.
  - intros (Ht & msg' & [= <-] & H1 & H2). done.
Qed.

Lemma recognised_is_provider_error e :
  recognised_conflict overwrite_artifact_id e ->
  exists msg ow_id, e = ProviderError msg
                    /\ overwrite_artifact_id = Some ow_id
                    /\ legacy_conflict overwrite_artifact_id msg = true.
Proof.
  intros H. pose proof H as (Ht & msg & -> & _).
  apply legacy_conflict_spec in H.
  destruct overwrite_artifact_id as [ow_id|]; [|done]. eauto.
Qed.

(** The handler on the recognised conflict: the delete, a warning if it
    raised, then the re-creation from the state the delete left. *)
Lemma overwrite_fallback_recognised st msg ow_id :
  overwrite_artifact_id = Some ow_id ->
  legacy_conflict overwrite_artifact_id msg = true ->
  overwrite_fallback inp sess overwrite_artifact_id (ProviderError msg) st
  = after (Called (Call_delete ow_id)
             (res_map Reply_val (fst (STORE.delete ow_id st)))
           :: (if is_ok (fst (STORE.delete ow_id st)) then []
               else [Logged WARNING ("Failed to delete old artefact " +:+ ow_id)]))
      (recreate inp sess (snd (STORE.delete ow_id st))).
Proof.
  intros Hid Hc. unfold overwrite_fallback. cbn [exn_str]. rewrite Hc, Hid.
  unfold delete_old. run.
  by destruct (STORE.delete ow_id st) as [[v|e] st1].
Qed.




(** [write_file] on the recognised conflict, step by step. *)
Lemma write_file_recovery st msg ow_id :
  overwrite_artifact_id = Some ow_id ->
  result (write_attempt inp sess st) = Raise (ProviderError msg) ->
  legacy_conflict overwrite_artifact_id msg = true ->
  let a := write_attempt inp sess st in
  let d := STORE.delete ow_id (final a) in
  let rec := recreate inp sess (snd d) in
  let o := write_file content filename session_id mime summary meta encoding
             overwrite_artifact_id st in
  exists tail,
    effects o
    = effects a
      ++ (Called (Call_delete ow_id) (res_map Reply_val (fst d))
          :: (if is_ok (fst d) then []
              else [Logged WARNING ("Failed to delete old artefact " +:+ ow_id)]))
      ++ effects rec ++ tail
    /\ match result rec with
       | Ok ai => result o = result (finish ai (final rec))
                  /\ tail = effects (finish ai (final rec))
       | Raise e' => result o = Raise e' /\ tail = []
       end.
Proof.
  intros Hid Ha Hc. cbv zeta. rewrite write_file_unfold.
  destruct (write_attempt inp sess st) as [ra st1 efa]. cbn in Ha. subst ra.
  cbn [try_outcome except_ProviderError final effects].
  rewrite (overwrite_fallback_recognised st1 msg ow_id Hid Hc).
  set (dl := Called _ _ :: _).
  pose proof (bind_outcome_spec
                (after efa (after dl (recreate inp sess (STORE.delete ow_id st1).2)))
                finish) as Hb.
  rewrite !result_after, !final_after, !effects_after in Hb.
  destruct (result (recreate inp sess (STORE.delete ow_id st1).2)) as [ai|e'].
  - destruct Hb as (Hr & _ & He). eexists. split; [|split; [exact Hr|reflexivity]].
    rewrite He. by rewrite <- !app_assoc.
  - rewrite Hb. cbn. exists []. split; [|done].
    by rewrite ?app_nil_r, <- ?app_assoc.
Qed.


(** Entry into the recovery, as the code decides it.  The delete of the old
    artefact, which opens the delete-then-recreate recovery, is among the
    calls of a run exactly when the normal attempt raised and the exception
    passes the handler's test on its message ([recognised_conflict]).  Any
    other exception of the attempt reaches the caller as an error (a
    provider error as [ValueError] with the same message, anything else
    unchanged), the run ends with the calls of the attempt, and neither a
    delete nor a fresh store is among them. *)
Lemma recovery_entry_by_message (st : STORE.St) :
  let a := write_attempt inp sess st in
  let o := write_file content filename session_id mime summary meta encoding
             overwrite_artifact_id st in
  (existsb is_delete_call (effects o) = true
   <-> exists e, result a = Raise e
                 /\ recognised_conflict overwrite_artifact_id e)
  /\ (forall e,
        result a = Raise e ->
        ~ recognised_conflict overwrite_artifact_id e ->
        result o = Raise (surfaced e)
        /\ effects o = effects a
        /\ no_delete_no_store (effects o)).
Proof.
  cbv zeta.
  pose proof (write_attempt_effects st) as Hna.
  destruct (result (write_attempt inp sess st)) as [ai|e] eqn:Ha.
  - (* the attempt went through: no recovery *)
    split; [|done]. split; [|by intros (e & [=] & _)].
    rewrite write_file_unfold.
    destruct (write_attempt inp sess st) as [ra st1 efa]. cbn in Ha. subst ra.
    cbn [try_outcome bind_outcome]. rewrite effects_after.
    rewrite no_delete_existsb; [done|].
    apply no_delete_no_store_app; [done|apply finish_effects].
  - destruct (except_ProviderError e) eqn:Hpe.
    + destruct e as [| | | | | |msg|]; try done.
      destruct (legacy_conflict overwrite_artifact_id msg) eqn:Hc.
      * (* the recognised conflict *)
        pose proof (proj1 (legacy_conflict_spec msg) Hc) as Hrec.
        destruct (recognised_is_provider_error _ Hrec)
          as (msg' & ow_id & _ & Hid & _).
        split; [|by intros e [= <-] []].
        split; [by eauto|]. intros _.
        destruct (write_file_recovery st msg ow_id Hid Ha Hc) as (tail & -> & _).
        rewrite !existsb_app. cbn. by rewrite orb_true_r.
      * (* a provider error of another kind *)
        assert (write_file content filename session_id mime summary meta
                  encoding overwrite_artifact_id st
                = Outcome (Raise (ValueError msg))
                    (final (write_attempt inp sess st))
                    (effects (write_attempt inp sess st))) as ->.
        { rewrite write_file_unfold.
          destruct (write_attempt inp sess st) as [ra st1 efa].
          cbn in Ha. subst ra. cbn. unfold overwrite_fallback. cbn [exn_str].
          rewrite Hc. cbn. by rewrite app_nil_r. }
        cbn. split.
        -- rewrite no_delete_existsb by done.
           split; [done|]. intros (e & [= <-] & Hrec).
           apply legacy_conflict_spec in Hrec. congruence.
        -- by intros e [= <-] _.
    + (* not a provider error: not caught at all *)
      assert (write_file content filename session_id mime summary meta
                encoding overwrite_artifact_id st
              = Outcome (Raise e) (final (write_attempt inp sess st))
                  (effects (write_attempt inp sess st))) as ->.
      { rewrite write_file_unfold.
        destruct (write_attempt inp sess st) as [ra st1 efa].
        cbn in Ha. subst ra. cbn. by rewrite Hpe. }
      cbn. split.
      * rewrite no_delete_existsb by done.
        split; [done|]. intros (e' & [= <-] & _ & msg & -> & _). done.
      * intros e' [= <-] _. unfold surfaced. by rewrite Hpe.
Qed.




End WriteFile.

(** A refusal with the recognised message opens the recovery; another
    refusal is surfaced. *)
Example recovery_entry_by_message_example :
  validate_session_parameter (Some "team42") "write_file" = Ok "team42"
  /\ existsb is_delete_call
       (effects (write_file (PY := pydantic_strict) (BK := Scripted.backend)
                   "new content" "doc.txt" (Some "team42") "text/plain"
                   "overwrite" None "utf-8" (Some "A1") script_delete_fails))
     = true
  /\ result (write_file (PY := pydantic_strict) (BK := Scripted.backend)
               "new content" "doc.txt" (Some "team42") "text/plain"
               "overwrite" None "utf-8" (Some "A1") script_other_error)
     = Raise (ValueError "Bucket unavailable").
Proof.
  split; [reflexivity|]. split.
  - apply (recovery_entry_by_message (PY := pydantic_strict) (RT := runtime_plain) (BK := Scripted.backend)
             "new content" "doc.txt" (Some "team42") "text/plain" "overwrite"
             None "utf-8" (Some "A1") "team42" eq_refl script_delete_fails).
    exists (ProviderError conflict_message). split; [reflexivity|].
    split; [reflexivity|]. exists conflict_message. repeat split; reflexivity.
  - destruct (recovery_entry_by_message (PY := pydantic_strict) (RT := runtime_plain)
                (BK := Scripted.backend)
                "new content" "doc.txt" (Some "team42") "text/plain"
                "overwrite" None "utf-8" (Some "A1") "team42" eq_refl
                script_other_error) as [_ H].
    refine (proj1 (H (ProviderError "Bucket unavailable") eq_refl _)).
    intros (_ & msg & Hm & Hc & _). injection Hm as <-. discriminate Hc.
Qed.


(** The delete failed, a warning was logged, and the store call followed. *)
Example recovery_trace_delete_fails :
  map (fun ef => match ef with
                 | Called (Call_write_file _ _ _ _ _ _ _ _) _ => "write_file"
                 | Called (Call_delete _) (Raise _) => "delete: raised"
                 | Called (Call_delete _) (Ok _) => "delete"
                 | Called (Call_store _ _ _ _ _ _) _ => "store"
                 | Called (Call_metadata _) _ => "metadata"
                 | Called (Call_presign_short _) _ => "presign_short"
                 | Called _ _ => "other"
                 | Logged WARNING _ => "warning"
                 | Logged _ _ => "log"
                 end)
    (effects (write_file (PY := pydantic_strict) (BK := Scripted.backend)
                "new content" "doc.txt" (Some "team42") "text/plain"
                "overwrite" None "utf-8" (Some "A1") script_delete_fails))
  = ["write_file"; "delete: raised"; "warning"; "store"; "metadata";
     "presign_short"].
Proof. reflexivity. Qed.



(** An empty string is no overwrite target: the tag is ["create"]. *)
Example empty_overwrite_id_creates :
  WriteFileResult.operation
    <$> (match result (write_file (PY := pydantic_strict) (BK := fake)
                         "new content" "doc.txt" (Some "team42") "text/plain"
                         "overwrite" (Some []) "utf-8" (Some "")
                         fake_with_legacy) with
         | Ok r => Some r
         | Raise _ => None
         end)
  = Some "create".
Proof. reflexivity. Qed.

(** ** The scenarios of the test suite, run on the embedding *)

(** In the test double, deleting an id that is not there never raises. *)
Lemma delete_file_fake_absent `{RT : Runtime} uuid id st :
  FakeStore.dict_get id (FakeStore._objects st) = None ->
  result (delete_file (BK := FakeStore.backend uuid) id st)
  = Ok (DeleteFileResult.Build false id).
Proof.
  intros H. unfold delete_file. run. unfold FakeStore.delete. by rewrite H.
Qed.

(** [test_write_and_list_session]. *)
Example test_write_and_list_session :
  match result (write_file (PY := pydantic_strict) (BK := fake)
                  "hello world" "hello.txt" (Some "abc123") "text/plain" "demo"
                  (Some []) "utf-8" None FakeStore.empty),
        result (list_session_files (PY := pydantic_strict) (BK := fake)
                  (Some "abc123") None fake_with_hello) with
  | Ok r, Ok listing =>
      ArtifactInfo.session_id (WriteFileResult.info r) = Some "abc123"
      /\ ListSessionFilesResult.count listing = 1%Z
      /\ map ArtifactInfo.artifact_id (ListSessionFilesResult.artifacts listing)
         = [ArtifactInfo.artifact_id (WriteFileResult.info r)]
      /\ map ArtifactInfo.session_id (ListSessionFilesResult.artifacts listing)
         = [Some "abc123"]
  | _, _ => False
  end.
Proof. vm_compute. repeat split. Qed.

(** [test_graceful_overwrite_of_legacy_object]: the double lets the write
    through (the legacy object has no session), so this is the direct path. *)
Example test_graceful_overwrite_of_legacy_object :
  let o := write_file (PY := pydantic_strict) (BK := fake)
             "new content" "doc.txt" (Some "team42") "text/plain" "overwrite"
             (Some []) "utf-8" (Some "id0") fake_with_legacy in
  match result o,
        result (list_session_files (PY := pydantic_strict) (BK := fake)
                  (Some "team42") None (final o)) with
  | Ok new, Ok listing =>
      WriteFileResult.operation new = "overwrite"
      /\ ArtifactInfo.session_id (WriteFileResult.info new) = Some "team42"
      /\ ArtifactInfo.artifact_id (WriteFileResult.info new) <> "id0"
      /\ In (ArtifactInfo.artifact_id (WriteFileResult.info new))
           (map ArtifactInfo.artifact_id
              (ListSessionFilesResult.artifacts listing))
      /\ FakeStore.dict_get "id0" (FakeStore._objects (final o)) = None
  | _, _ => False
  end.
Proof. vm_compute. repeat split; [discriminate|by left]. Qed.

(** C2 ([write_file], entry into the recovery), at the failing input.  The
    test double holds one object that belongs to a session whose name is the
    four-letter string ["None"]: it has an owner, it is not a legacy object.
    A caller of session [team42] asks to overwrite it.  The double refuses
    with the cross-session message, which reads [belongs to session 'None'];
    the handler takes the text for the legacy conflict, deletes the object
    of the other session and stores the new content under [team42]. *)
Theorem C2_recovery_on_session_named_None :
  let st := fake_with_session_named_None in
  let o := write_file (PY := pydantic_strict) (BK := fake)
             "new content" "doc.txt" (Some "team42") "text/plain" "overwrite"
             (Some []) "utf-8" (Some "id0") st in
  FakeStore.o_session_id <$> FakeStore.dict_get "id0" (FakeStore._objects st)
  = Some (Some "None")
  /\ ~ owned_by_nobody st "id0"
  /\ In (Called (Call_write_file "new content" "doc.txt" "text/plain"
                   "overwrite" (Some "team42") [] "utf-8" (Some "id0"))
           (Raise (ProviderError
                     "Cross-session overwrite not permitted. Artifact id0 belongs to session 'None', cannot overwrite from session 'team42'.")))
       (effects o)
  /\ In (Called (Call_delete "id0") (Ok (Reply_val (PyBool true)))) (effects o)
  /\ FakeStore.dict_get "id0" (FakeStore._objects (final o)) = None
  /\ result o
     = Ok (WriteFileResult.Build
             (ArtifactInfo.Build "id1" (Some "doc.txt") "text/plain" 11
                (Some "overwrite") "2025-06-01T00:00:00Z" (Some "team42") [])
             (Some "https://example/id1") "overwrite").
Proof.
  cbv zeta. split; [reflexivity|]. split.
  { intros (old & Hg & Hs). vm_compute in Hg. injection Hg as <-.
    discriminate Hs. }
  split; [vm_compute; by left|]. split; [vm_compute; right; by left|].
  split; reflexivity.
Qed.

(** A legacy object proper, one without owner, is not refused by the test
    double at all: the overwrite of [test_graceful_overwrite_of_legacy_object]
    goes through on the direct path, without delete. *)
Example legacy_object_overwritten_directly :
  owned_by_nobody fake_with_legacy "id0"
  /\ existsb is_delete_call
       (effects (write_file (PY := pydantic_strict) (BK := fake)
                   "new content" "doc.txt" (Some "team42") "text/plain"
                   "overwrite" (Some []) "utf-8" (Some "id0")
                   fake_with_legacy))
     = false.
Proof. split; [|reflexivity]. eexists. split; reflexivity. Qed.

(** * Further properties of the tools and of the test double *)

(** ** More on the descriptor normaliser *)

Lemma segment_from_no_slash s : forall acc,
  no_slash s = true -> segment_from acc s = acc +:+ s.
Proof.
  induction s as [|c s IH]; intros acc; cbn.
  - by rewrite string_app_empty.
  - destruct (Ascii.eqb c "/"); [done|]. cbn. intros Hs.
    rewrite (IH _ Hs). by rewrite string_app_assoc.
Qed.

Lemma segment_from_prefix prefix name : forall acc,
  no_slash name = true ->
  segment_from acc (prefix +:+ String "/" name) = name.
Proof.
  induction prefix as [|c p IH]; intros acc Hn.
  - change (segment_from EmptyString name = name).
    by rewrite segment_from_no_slash.
  - change (segment_from acc (String c (p +:+ String "/" name)) = name).
    cbn. destruct (Ascii.eqb c "/"); by apply IH.
Qed.

Section NormalizerMore.
Context `{PY : Pydantic}.

(** Every field of a descriptor, traced back to the raw record. *)
Lemma _info_fields meta fallback_id fallback_session_id d :
  _info meta fallback_id fallback_session_id = Ok d ->
  as_opt_str (raw_get "filename" meta) = Some (ArtifactInfo.filename d)
  /\ (exists v, meta !! "mime" = Some v /\ as_str v = Some (ArtifactInfo.mime d))
  /\ (exists v, meta !! "bytes" = Some v /\ as_int v = Some (ArtifactInfo.bytes d))
  /\ as_opt_str (raw_get "summary" meta) = Some (ArtifactInfo.summary d)
  /\ (exists v, meta !! "stored_at" = Some v
                /\ as_str v = Some (ArtifactInfo.stored_at d))
  /\ as_dict (raw_get_default "meta" (PyDict []) meta)
     = Some (ArtifactInfo.meta d).
Proof.
  unfold _info, ArtifactInfo_model_validate, raw_item.
  destruct (resolve_art_id meta fallback_id) as [v|e]; [|done].
  destruct (truthy v); [|done]. cbn [negb].
  destruct (meta !! "mime") as [vm|]; [|done].
  destruct (meta !! "bytes") as [vb|]; [|done].
  destruct (meta !! "stored_at") as [vs|]; [|done].
  repeat match goal with
         | |- context [match ?x with Some _ => _ | None => _ end] =>
             destruct x eqn:?; [|done]
         end.
  intros [= <-]. cbn. repeat split; eauto.
Qed.

(** X1 ([_info]).  Once the id is settled, the required raw fields are
    looked up in the order [mime], [bytes], [stored_at]: the first one that
    is absent is the [KeyError] raised, and a descriptor is produced only
    when all three are present. *)
Theorem _info_required_fields (meta : raw)
    (fallback_id fallback_session_id v : pyval) :
  resolve_art_id meta fallback_id = Ok v ->
  truthy v = true ->
  (meta !! "mime" = None ->
   _info meta fallback_id fallback_session_id = Raise (KeyError "mime"))
  /\ (is_Some (meta !! "mime") -> meta !! "bytes" = None ->
      _info meta fallback_id fallback_session_id = Raise (KeyError "bytes"))
  /\ (is_Some (meta !! "mime") -> is_Some (meta !! "bytes") ->
      meta !! "stored_at" = None ->
      _info meta fallback_id fallback_session_id
      = Raise (KeyError "stored_at"))
  /\ (forall d, _info meta fallback_id fallback_session_id = Ok d ->
                is_Some (meta !! "mime") /\ is_Some (meta !! "bytes")
                /\ is_Some (meta !! "stored_at")).
Proof.
  intros Hv Ht. unfold _info, raw_item. rewrite Hv, Ht. cbn [negb].
  repeat split.
  - by intros ->.
  - by intros [m ->] ->.
  - by intros [m ->] [b ->] ->.
  - destruct (meta !! "mime"); [by eauto|done].
  - destruct (meta !! "mime"); [|done].
    destruct (meta !! "bytes"); [by eauto|done].
  - destruct (meta !! "mime"); [|done]. destruct (meta !! "bytes"); [|done].
    destruct (meta !! "stored_at"); [by eauto|done].
Qed.

(** X2 ([_info]).  A record with no [artifact_id] and no [id] whose [key] is
    [prefix/name], with a non-empty [name] free of slashes, is normalised
    under the id [name], whatever the prefix and whatever the fallback id. *)
Theorem _info_id_from_key (meta : raw) (fallback_id fallback_session_id : pyval)
    (prefix name : string) (d : ArtifactInfo.t) :
  truthy (raw_get "artifact_id" meta) = false ->
  truthy (raw_get "id" meta) = false ->
  meta !! "key" = Some (PyStr (prefix +:+ String "/" name)) ->
  no_slash name = true ->
  name <> "" ->
  _info meta fallback_id fallback_session_id = Ok d ->
  ArtifactInfo.artifact_id d = name.
Proof.
  intros Ha Hi Hk Hn Hne Hd.
  apply _info_inv in Hd as (v & Hv & _ & Hid & _).
  assert (key_tail (raw_get "key" meta) = Ok (PyStr name)) as Hkt.
  { unfold key_tail, raw_get. rewrite Hk. cbn [default id].
    assert (truthy (PyStr (prefix +:+ String "/" name)) = true) as Ht.
    { cbn. destruct (String.eqb_spec (prefix +:+ String "/" name) "") as [E|_];
        [by destruct prefix|done]. }
    unfold py_or. rewrite Ht, split_last_segment. cbn [res_map].
    unfold last_segment. by rewrite segment_from_prefix. }
  unfold resolve_art_id in Hv. rewrite Ha, Hi, Hkt in Hv.
  unfold py_or in Hv. cbn [truthy] in Hv.
  destruct (String.eqb_spec name ""); [done|]. cbn in Hv.
  injection Hv as <-. rewrite as_str_str in Hid. congruence.
Qed.

(** X3 ([_info]).  In any descriptor produced, raw fields that are absent
    give an unset [filename], an unset [summary] and an empty [meta]
    mapping. *)
Theorem _info_absent_optionals (meta : raw)
    (fallback_id fallback_session_id : pyval) (d : ArtifactInfo.t) :
  _info meta fallback_id fallback_session_id = Ok d ->
  (meta !! "filename" = None -> ArtifactInfo.filename d = None)
  /\ (meta !! "summary" = None -> ArtifactInfo.summary d = None)
  /\ (meta !! "meta" = None -> ArtifactInfo.meta d = []).
Proof.
  intros Hd. apply _info_fields in Hd as (Hf & _ & _ & Hs & _ & Hm).
  unfold raw_get, raw_get_default in *. repeat split.
  - intros E. rewrite E in Hf. cbn in Hf. congruence.
  - intros E. rewrite E in Hs. cbn in Hs. congruence.
  - intros E. rewrite E in Hm. cbn in Hm. rewrite as_dict_dict in Hm.
    congruence.
Qed.

Lemma to_raw_lookups (o : FakeStore.obj) :
  let m := FakeStore.to_raw o in
  m !! "artifact_id" = Some (PyStr (FakeStore.o_artifact_id o))
  /\ m !! "filename" = Some (PyStr (FakeStore.o_filename o))
  /\ m !! "mime" = Some (PyStr (FakeStore.o_mime o))
  /\ m !! "bytes" = Some (PyInt (FakeStore.o_bytes o))
  /\ m !! "summary" = Some (PyStr (FakeStore.o_summary o))
  /\ m !! "stored_at" = Some (PyStr (FakeStore.o_stored_at o))
  /\ m !! "session_id" = Some (of_opt_str (FakeStore.o_session_id o))
  /\ m !! "meta" = Some (PyDict (FakeStore.o_meta o)).
Proof. destruct o. repeat split; reflexivity. Qed.

Lemma _info_of_record (o : FakeStore.obj) (fallback_id : pyval)
    (fallback_session_id : option string) :
  FakeStore.o_artifact_id o <> "" ->
  _info (FakeStore.to_raw o) fallback_id (of_opt_str fallback_session_id)
  = Ok (ArtifactInfo.Build
          (FakeStore.o_artifact_id o) (Some (FakeStore.o_filename o))
          (FakeStore.o_mime o) (FakeStore.o_bytes o)
          (Some (FakeStore.o_summary o)) (FakeStore.o_stored_at o)
          (match FakeStore.o_session_id o with
           | Some s => if String.eqb s "" then fallback_session_id else Some s
           | None => fallback_session_id
           end)
          (FakeStore.o_meta o)).
Proof.
  intros Hne.
  assert (String.eqb (FakeStore.o_artifact_id o) "" = false) as Hid
    by (by destruct (String.eqb_spec (FakeStore.o_artifact_id o) "")).
  destruct (to_raw_lookups o) as (Ha & Hf & Hm & Hb & Hs & Ht & Hse & Hme).
  unfold _info, resolve_art_id, raw_get, raw_item, raw_get_default.
  rewrite Ha, Hf, Hm, Hb, Hs, Ht, Hse, Hme.
  unfold default. cbn [from_option id truthy]. rewrite Hid. cbn [negb].
  unfold ArtifactInfo_model_validate.
  rewrite !as_str_str, as_int_int, as_dict_dict. cbn [as_opt_str].
  rewrite !as_str_str. cbn [fmap option_fmap option_map truthy].
  rewrite ?Hid. cbn [negb].
  destruct (FakeStore.o_session_id o) as [s|]; cbn [of_opt_str].
  - unfold py_or. cbn [truthy]. destruct (String.eqb s ""); cbn [negb].
    + by rewrite as_opt_str_of_opt_str.
    + cbn. by rewrite as_str_str.
  - unfold py_or. cbn [truthy]. by rewrite as_opt_str_of_opt_str.
Qed.

(** X4 ([_info] on [FakeStore] records).  The records of the test double
    normalise to themselves: every object with a non-empty id gives the
    descriptor with the same fields, its session replaced by the fallback
    only when it has none (or an empty one). *)
Theorem _info_to_raw (o : FakeStore.obj) (fallback_id : pyval)
    (fallback_session_id : option string) :
  FakeStore.o_artifact_id o <> "" ->
  _info (FakeStore.to_raw o) fallback_id (of_opt_str fallback_session_id)
  = Ok (ArtifactInfo.Build
          (FakeStore.o_artifact_id o) (Some (FakeStore.o_filename o))
          (FakeStore.o_mime o) (FakeStore.o_bytes o)
          (Some (FakeStore.o_summary o)) (FakeStore.o_stored_at o)
          (match FakeStore.o_session_id o with
           | Some s => if String.eqb s "" then fallback_session_id else Some s
           | None => fallback_session_id
           end)
          (FakeStore.o_meta o)).
Proof. exact (_info_of_record o fallback_id fallback_session_id). Qed.

End NormalizerMore.

Lemma _info_required_fields_witness :
  resolve_art_id ex_no_mime PyNone = Ok (PyStr "A1")
  /\ _info (PY := pydantic_strict) ex_no_mime PyNone PyNone
     = Raise (KeyError "mime").
Proof.
  split; [reflexivity|].
  destruct (_info_required_fields (PY := pydantic_strict) ex_no_mime PyNone
              PyNone (PyStr "A1") eq_refl eq_refl) as [H _].
  exact (H eq_refl).
Defined.

Lemma _info_id_from_key_witness :
  _info (PY := pydantic_strict) ex_keyed (PyStr "fallback") PyNone
  = Ok (ArtifactInfo.Build "XYZ" None "text/plain" 3 None
          "2025-06-01T00:00:00Z" None [])
  /\ ArtifactInfo.artifact_id
       (ArtifactInfo.Build "XYZ" None "text/plain" 3 None
          "2025-06-01T00:00:00Z" None []) = "XYZ".
Proof.
  split; [reflexivity|].
  apply (_info_id_from_key (PY := pydantic_strict) ex_keyed (PyStr "fallback")
           PyNone "prefix" "XYZ"); try reflexivity.
  discriminate.
Defined.

Lemma _info_absent_optionals_witness :
  ArtifactInfo.filename
    (ArtifactInfo.Build "XYZ" None "text/plain" 3 None
       "2025-06-01T00:00:00Z" None []) = None.
Proof.
  destruct (_info_absent_optionals (PY := pydantic_strict) ex_keyed PyNone
              PyNone _ eq_refl) as [H _].
  exact (H eq_refl).
Defined.

Lemma _info_to_raw_witness :
  _info (PY := pydantic_strict)
    (FakeStore.to_raw (FakeStore.Obj "id0" "doc.txt" "text/plain" 3 "legacy"
                         "2025-06-01T00:00:00Z" None []))
    PyNone (of_opt_str (Some "team42"))
  = Ok (ArtifactInfo.Build "id0" (Some "doc.txt") "text/plain" 3
          (Some "legacy") "2025-06-01T00:00:00Z" (Some "team42") []).
Proof.
  apply (_info_to_raw (PY := pydantic_strict)
           (FakeStore.Obj "id0" "doc.txt" "text/plain" 3 "legacy"
              "2025-06-01T00:00:00Z" None []) PyNone (Some "team42")).
  discriminate.
Defined.

(** ** More on the delivery selector and the read tools *)

Section ReadToolsMore.
Context `{PY : Pydantic} `{BK : STORE.ArtifactStore}.

(** X5 ([_presign_or_inline]).  Inline delivery is lossless: whenever the
    selector returns a [data_base64], decoding it gives back exactly the
    bytes the store's [retrieve] answered in that run, and [download_url] is
    unset. *)
Theorem inline_payload_decodes (artifact_id : string) (presign : bool)
    (st : STORE.St) (url : option string) (text : string) :
  result (_presign_or_inline artifact_id presign st) = Ok (url, Some text) ->
  url = None
  /\ exists data,
       b64decode text = Some data
       /\ In (Called (Call_retrieve artifact_id) (Ok (Reply_bytes data)))
            (effects (_presign_or_inline artifact_id presign st)).
Proof.
  unfold _presign_or_inline, inline_payload. destruct presign; run.
  - destruct (STORE.presign_medium artifact_id st) as [[u|e] st1]; cbn;
      [done|].
    destruct (STORE.retrieve artifact_id st1) as [[data|e'] st2]; cbn; [|done].
    intros [= <- <-]. split; [done|]. exists data.
    split; [apply b64decode_b64encode|]. right. right. by left.
  - destruct (STORE.retrieve artifact_id st) as [[data|e'] st2]; cbn; [|done].
    intros [= <- <-]. split; [done|]. exists data.
    split; [apply b64decode_b64encode|]. by left.
Qed.

(** X6 ([_presign_or_inline]).  The payload is fetched only when it has to
    be: a [retrieve] call is made exactly when presigning was not asked for
    or [presign_medium] raised. *)
Theorem retrieve_only_when_needed (artifact_id : string) (presign : bool)
    (st : STORE.St) :
  (exists r, In (Called (Call_retrieve artifact_id) r)
               (effects (_presign_or_inline artifact_id presign st)))
  <-> presign = false
      \/ exists e st1, STORE.presign_medium artifact_id st = (Raise e, st1).
Proof.
  unfold _presign_or_inline, inline_payload. destruct presign; run.
  - destruct (STORE.presign_medium artifact_id st) as [[u|e] st1]; cbn.
    + split.
      * intros (r & [H|[]]). discriminate H.
      * intros [H|(e & st' & H)]; discriminate H.
    + split; [by eauto|]. intros _.
      destruct (STORE.retrieve artifact_id st1) as [[data|e'] st2]; cbn;
        eexists; right; right; by left.
  - split; [by auto|]. intros _.
    destruct (STORE.retrieve artifact_id st) as [[data|e'] st2]; cbn;
      eexists; by left.
Qed.

(** X7 ([download_file]).  A failing metadata lookup reaches the caller as
    [ValueError] with the backend's message; a record that cannot be
    normalised lets the normaliser's own exception through unchanged; in
    both cases the metadata lookup is the only call, so no delivery is
    attempted for an artefact that cannot be described. *)
Theorem download_file_failures (artifact_id : string) (presign : bool)
    (st : STORE.St) :
  (forall e st1,
      STORE.metadata artifact_id st = (Raise e, st1) ->
      download_file artifact_id presign st
      = Outcome (Raise (ValueError (exn_str e))) st1
          [Called (Call_metadata artifact_id) (Raise e)])
  /\ (forall m st1 e,
        STORE.metadata artifact_id st = (Ok m, st1) ->
        _info m (PyStr artifact_id) (raw_get "session_id" m) = Raise e ->
        download_file artifact_id presign st
        = Outcome (Raise e) st1
            [Called (Call_metadata artifact_id) (Ok (Reply_raw m))]).
Proof.
  split.
  - intros e st1 Hm. unfold download_file. run. by rewrite Hm.
  - intros m st1 e Hm Hi. unfold download_file. run. rewrite Hm. cbn.
    by rewrite Hi.
Qed.

(** X8 ([download_file]).  Every response carries the normalised descriptor
    of the record the store returned for that id, and exactly one of
    [download_url] and [data_base64]. *)
Theorem download_file_response (artifact_id : string) (presign : bool)
    (st : STORE.St) (r : DownloadFileResult.t) :
  result (download_file artifact_id presign st) = Ok r ->
  (exists m st1,
      STORE.metadata artifact_id st = (Ok m, st1)
      /\ _info m (PyStr artifact_id) (raw_get "session_id" m)
         = Ok (DownloadFileResult.artifact r))
  /\ ((is_Some (DownloadFileResult.download_url r)
       /\ DownloadFileResult.data_base64 r = None)
      \/ (DownloadFileResult.download_url r = None
          /\ is_Some (DownloadFileResult.data_base64 r))).
Proof.
  unfold download_file. run.
  destruct (STORE.metadata artifact_id st) as [[m|e] st1]; cbn; [|done].
  destruct (_info m (PyStr artifact_id) (raw_get "session_id" m)) as [d|e]
    eqn:Hi; cbn; [|done].
  unfold _presign_or_inline, inline_payload. destruct presign; run.
  - destruct (STORE.presign_medium artifact_id st1) as [[u|e] st2]; cbn.
    + intros [= <-]. cbn. split; [by eauto|]. left. eauto.
    + destruct (STORE.retrieve artifact_id st2) as [[data|e'] st3]; cbn;
        [|done].
      intros [= <-]. cbn. split; [by eauto|]. right. eauto.
  - destruct (STORE.retrieve artifact_id st1) as [[data|e'] st3]; cbn; [|done].
    intros [= <-]. cbn. split; [by eauto|]. right. eauto.
Qed.

(** X9 ([get_metadata]).  The metadata lookup is the only call made; and for
    a record that carries no id of its own ([artifact_id], [id] and [key]
    all absent) the descriptor goes under the id that was asked for. *)
Theorem get_metadata_requested_id (artifact_id : string) (st : STORE.St) :
  (exists r, effects (get_metadata artifact_id st)
             = [Called (Call_metadata artifact_id) r])
  /\ (forall m st1 d,
        STORE.metadata artifact_id st = (Ok m, st1) ->
        m !! "artifact_id" = None -> m !! "id" = None -> m !! "key" = None ->
        result (get_metadata artifact_id st) = Ok d ->
        ArtifactInfo.artifact_id d = artifact_id).
Proof.
  unfold get_metadata. run. split.
  - destruct (STORE.metadata artifact_id st) as [[m|e] st1]; cbn; [|by eauto].
    destruct (_info m (PyStr artifact_id) (raw_get "session_id" m)); cbn; eauto.
  - intros m st1 d Hm Ha Hi Hk. rewrite Hm. cbn.
    destruct (_info m (PyStr artifact_id) (raw_get "session_id" m)) as [d'|e]
      eqn:Hinfo; cbn; [|done].
    intros [= <-]. apply _info_inv in Hinfo as (v & Hv & _ & Hid & _).
    unfold resolve_art_id, raw_get in Hv. rewrite Ha, Hi, Hk in Hv.
    cbn in Hv. unfold py_or in Hv. cbn in Hv. injection Hv as <-.
    rewrite as_str_str in Hid. congruence.
Qed.

End ReadToolsMore.

Section SimpleToolsMore.
Context `{PY : Pydantic} `{BK : STORE.ArtifactStore}.

(** [delete_file]: the answer of the backend decides everything.  An
    exception becomes [ValueError] with the same message; any answer [v]
    gives [success = bool(v)]; the backend state is the one the delete
    left. *)
Lemma delete_file_outcomes (artifact_id : string) (st : STORE.St) :
  (forall e st1,
      STORE.delete artifact_id st = (Raise e, st1) ->
      delete_file artifact_id st
      = Outcome (Raise (ValueError (exn_str e))) st1
          [Called (Call_delete artifact_id) (Raise e)])
  /\ (forall v st1,
        STORE.delete artifact_id st = (Ok v, st1) ->
        delete_file artifact_id st
        = Outcome (Ok (DeleteFileResult.Build (truthy v) artifact_id)) st1
            [Called (Call_delete artifact_id) (Ok (Reply_val v))]).
Proof.
  split; intros x st1 Hd; unfold delete_file; run; by rewrite Hd.
Qed.

(** X10 ([copy_file]).  When the copy itself fails, no metadata is looked up
    and the caller gets [ValueError] with the backend's message; a failing
    metadata lookup of the copy is reported the same way; a copy whose
    record cannot be normalised lets the normaliser's exception through, and
    the backend stays as the copy and the lookup left it. *)
Theorem copy_file_failures (artifact_id : string) (filename : option string)
    (meta : option pydict) (st : STORE.St) :
  (forall e st1,
      STORE.copy_file artifact_id filename None (default [] meta) st
      = (Raise e, st1) ->
      copy_file artifact_id filename meta st
      = Outcome (Raise (ValueError (exn_str e))) st1
          [Called (Call_copy_file artifact_id filename None (default [] meta))
             (Raise e)])
  /\ (forall new_id st1 e st2,
        STORE.copy_file artifact_id filename None (default [] meta) st
        = (Ok new_id, st1) ->
        STORE.metadata new_id st1 = (Raise e, st2) ->
        result (copy_file artifact_id filename meta st)
        = Raise (ValueError (exn_str e))
        /\ final (copy_file artifact_id filename meta st) = st2)
  /\ (forall new_id st1 m st2 e,
        STORE.copy_file artifact_id filename None (default [] meta) st
        = (Ok new_id, st1) ->
        STORE.metadata new_id st1 = (Ok m, st2) ->
        _info m (PyStr new_id) (raw_get "session_id" m) = Raise e ->
        result (copy_file artifact_id filename meta st) = Raise e
        /\ final (copy_file artifact_id filename meta st) = st2).
Proof.
  split; [|split].
  - intros e st1 Hc. unfold copy_file. run. by rewrite Hc.
  - intros new_id st1 e st2 Hc Hm. unfold copy_file. run.
    rewrite Hc. cbn. by rewrite Hm.
  - intros new_id st1 m st2 e Hc Hm Hi. unfold copy_file. run.
    rewrite Hc. cbn. rewrite Hm. cbn. by rewrite Hi.
Qed.

(** X11 ([read_file]).  One call to the store with the mode and encoding
    asked for; an exception of the store becomes [ValueError] with the same
    message; and in binary mode an answer that is not [bytes] (a [str], or
    [None]) is a [TypeError], not a result. *)
Theorem read_file_failures (artifact_id : string) (as_text : bool)
    (encoding : string) (st : STORE.St) :
  (exists r, effects (read_file artifact_id as_text encoding st)
             = [Called (Call_read_file artifact_id as_text encoding) r])
  /\ (forall e st1,
        STORE.read_file artifact_id as_text encoding st = (Raise e, st1) ->
        result (read_file artifact_id as_text encoding st)
        = Raise (ValueError (exn_str e)))
  /\ (forall v st1,
        as_text = false ->
        STORE.read_file artifact_id false encoding st = (Ok v, st1) ->
        (forall data, v <> PyBytes data) ->
        exists msg,
          result (read_file artifact_id false encoding st)
          = Raise (TypeError msg)).
Proof.
  repeat split; unfold read_file; run.
  - destruct (STORE.read_file artifact_id as_text encoding st)
      as [[v|e] st1]; cbn; [|by eauto].
    destruct as_text; cbn.
    + destruct (ReadFileResult_text artifact_id v encoding); cbn; eauto.
    + destruct (ReadFileResult_binary artifact_id v); cbn; eauto.
  - intros e st1 Hr. by rewrite Hr.
  - intros v st1 -> Hr Hv. rewrite Hr. cbn.
    destruct v; cbn; eauto. by destruct (Hv b).
Qed.

End SimpleToolsMore.

(** ** More on the listings and on the session of a request *)

Lemma map_res_Forall2 {A B} (f : A -> res B) xs ys :
  map_res f xs = Ok ys -> Forall2 (fun x y => f x = Ok y) xs ys.
Proof.
  revert ys. induction xs as [|x xs IH]; intros ys; cbn.
  - intros [= <-]. constructor.
  - destruct (f x) as [y|e] eqn:Hf; [|done].
    destruct (map_res f xs) as [ys0|e]; [|done]. cbn.
    intros [= <-]. constructor; [done|by apply IH].
Qed.

Lemma map_res_failure {A B} (f : A -> res B) xs x e :
  In x xs -> f x = Raise e -> exists e', map_res f xs = Raise e'.
Proof.
  induction xs as [|x0 xs IH]; [done|]. cbn. intros [->|Hin] Hf.
  - rewrite Hf. eauto.
  - destruct (f x0); [|by eauto].
    destruct (IH Hin Hf) as [e' ->]. cbn. eauto.
Qed.

Section ListingMore.
Context `{PY : Pydantic} `{RT : Runtime} `{BK : STORE.ArtifactStore}.

(** X12 ([list_session_files]).  The listing is all or nothing.  With a
    session and a backend that answers, the one call made is
    [list_by_prefix] with the effective session, the prefix (the empty
    string when none was given) and the limit 1000; a result has one
    descriptor per raw record, in order, [count] their number and the
    effective session; and a
    single record that cannot be normalised turns the whole call into
    [ValueError("Failed to list session files: ...")]. *)
Theorem list_session_files_all_or_nothing (session_id prefix : option string)
    (st st1 : STORE.St) (sess : string) (metas : list raw) :
  validate_session_parameter session_id "list_session_files" = Ok sess ->
  STORE.list_by_prefix sess (default "" prefix) 1000 st = (Ok metas, st1) ->
  let o := list_session_files session_id prefix st in
  effects o = [Called (Call_list_by_prefix sess (default "" prefix) 1000)
                 (Ok (Reply_raws metas))]
  /\ (forall r, result o = Ok r ->
        ListSessionFilesResult.count r = Z.of_nat (length metas)
        /\ ListSessionFilesResult.session_id r = sess
        /\ Forall2 (fun m d => _info m PyNone (PyStr sess) = Ok d)
             metas (ListSessionFilesResult.artifacts r))
  /\ (forall m e, In m metas -> _info m PyNone (PyStr sess) = Raise e ->
        exists e', result o
                   = Raise (ValueError ("Failed to list session files: "
                                          +:+ exn_str e'))).
Proof.
  intros Hs Hl. cbv zeta. unfold list_session_files. run.
  rewrite Hs. cbn. rewrite Hl. cbn.
  destruct (map_res (fun m => _info m PyNone (PyStr sess)) metas)
    as [infos|e0] eqn:Hm; cbn.
  - split; [done|]. split.
    + intros r [= <-]. cbn. apply map_res_Forall2 in Hm.
      split; [by rewrite (Forall2_length _ _ _ Hm)|]. done.
    + intros m e Hin Hi.
      destruct (map_res_failure (fun m => _info m PyNone (PyStr sess))
                  metas m e Hin Hi) as [e' He']. congruence.
  - split; [done|]. split; [done|]. eauto.
Qed.

(** X13 ([list_directory]).  The same for a directory: the one call made is
    [get_directory_contents] with the effective session, the directory and
    the limit 1000; a result has one descriptor per raw record, [count]
    their number, the effective session and the directory echoed; one record
    that cannot be normalised turns the call into [ValueError("Failed to
    list directory: ...")]. *)
Theorem list_directory_all_or_nothing (directory : string)
    (session_id : option string) (st st1 : STORE.St) (sess : string)
    (metas : list raw) :
  validate_session_parameter session_id "list_directory" = Ok sess ->
  STORE.get_directory_contents sess directory 1000 st = (Ok metas, st1) ->
  let o := list_directory directory session_id st in
  effects o = [Called (Call_get_directory_contents sess directory 1000)
                 (Ok (Reply_raws metas))]
  /\ (forall r, result o = Ok r ->
        ListDirectoryResult.count r = Z.of_nat (length metas)
        /\ ListDirectoryResult.session_id r = sess
        /\ ListDirectoryResult.directory r = directory
        /\ Forall2 (fun m d => _info m PyNone (PyStr sess) = Ok d)
             metas (ListDirectoryResult.artifacts r))
  /\ (forall m e, In m metas -> _info m PyNone (PyStr sess) = Raise e ->
        exists e', result o
                   = Raise (ValueError ("Failed to list directory: "
                                          +:+ exn_str e'))).
Proof.
  intros Hs Hl. cbv zeta. unfold list_directory. run.
  rewrite Hs. cbn. rewrite Hl. cbn.
  destruct (map_res (fun m => _info m PyNone (PyStr sess)) metas)
    as [infos|e0] eqn:Hm; cbn.
  - split; [done|]. split.
    + intros r [= <-]. cbn. apply map_res_Forall2 in Hm.
      split; [by rewrite (Forall2_length _ _ _ Hm)|]. done.
    + intros m e Hin Hi.
      destruct (map_res_failure (fun m => _info m PyNone (PyStr sess))
                  metas m e Hin Hi) as [e' He']. congruence.
  - split; [done|]. split; [done|]. eauto.
Qed.

(** X14 ([list_session_files], [list_directory], [write_file],
    [upload_file]).  Without a session nothing is asked of the store: when
    the session resolver raises (anything but a pydantic validation error),
    each of these tools raises that same exception, makes no call and leaves
    the backend as it was. *)
Theorem no_session_no_store_call `{B64 : Base64} (session_id : option string)
    (st : STORE.St) :
  (forall e prefix,
      validate_session_parameter session_id "list_session_files" = Raise e ->
      except_ValidationError e = false ->
      list_session_files session_id prefix st = Outcome (Raise e) st [])
  /\ (forall e directory,
        validate_session_parameter session_id "list_directory" = Raise e ->
        except_ValidationError e = false ->
        list_directory directory session_id st = Outcome (Raise e) st [])
  /\ (forall e content filename mime summary meta encoding
             overwrite_artifact_id,
        validate_session_parameter session_id "write_file" = Raise e ->
        except_ValidationError e = false ->
        write_file content filename session_id mime summary meta encoding
          overwrite_artifact_id st = Outcome (Raise e) st [])
  /\ (forall e data_base64 filename mime summary meta,
        validate_session_parameter session_id "upload_file" = Raise e ->
        except_ValidationError e = false ->
        upload_file data_base64 filename mime session_id summary meta st
        = Outcome (Raise e) st []).
Proof.
  repeat split; intros;
    unfold list_session_files, list_directory, write_file, upload_file; cbn;
    match goal with H : validate_session_parameter _ _ = _ |- _ => rewrite H end;
    cbn;
    match goal with H : except_ValidationError _ = _ |- _ => by rewrite H end.
Qed.

End ListingMore.

(** ** More on [write_file] *)

Lemma recreate_effects `{PY : Pydantic} `{RT : Runtime}
    `{BK : STORE.ArtifactStore} inp sess st :
  forall ef, In ef (effects (recreate inp sess st)) -> is_delete_call ef = false.
Proof.
  unfold recreate, _store_and_build_info. run.
  destruct (str_encode _ _) as [data|e]; cbn; [|done].
  destruct (STORE.store _ _ _ _ _ _ st) as [[art_id|e] st1]; cbn.
  2: { by intros ef [<-|[]]. }
  destruct (STORE.metadata art_id st1) as [[m|e] st2]; cbn.
  2: { by intros ef [<-|[<-|[]]]. }
  destruct (_info m (PyStr art_id) (PyStr sess)); cbn;
    by intros ef [<-|[<-|[]]].
Qed.

Lemma bind_outcome_extends {S A B} (o : outcome S A) (f : A -> M S B) :
  exists tail, effects (bind_outcome o f) = effects o ++ tail.
Proof.
  destruct o as [[a|e] st ef]; cbn.
  - rewrite effects_after. eauto.
  - exists []. by rewrite app_nil_r.
Qed.

Lemma try_outcome_extends {S A} (o : outcome S A) catches handler :
  exists tail, effects (try_outcome o catches handler) = effects o ++ tail.
Proof.
  destruct o as [[a|e] st ef]; cbn.
  - exists []. by rewrite app_nil_r.
  - destruct (catches e); [|exists []; by rewrite app_nil_r].
    rewrite effects_after. eauto.
Qed.

Section WriteFileMore.
Context `{PY : Pydantic} `{RT : Runtime} `{BK : STORE.ArtifactStore}.
Variables (content filename : string) (session_id : option string)
  (mime summary : string) (meta : option pydict) (encoding : string)
  (overwrite_artifact_id : option string).

#[local] Abbreviation the_call st :=
  (write_file content filename session_id mime summary meta encoding
     overwrite_artifact_id st).

(** A run either stays clear of delete and store, or it is the recovery on
    the recognised conflict. *)
Lemma write_file_run_cases st :
  no_delete_no_store (effects (the_call st))
  \/ exists sess msg ow_id,
       validate_session_parameter session_id "write_file" = Ok sess
       /\ overwrite_artifact_id = Some ow_id
       /\ result (write_attempt
                    (write_input content filename sess mime summary meta
                       encoding overwrite_artifact_id) sess st)
          = Raise (ProviderError msg)
       /\ legacy_conflict overwrite_artifact_id msg = true.
Proof.
  destruct (validate_session_parameter session_id "write_file") as [sess|e]
    eqn:Hs.
  2: { left. unfold write_file. cbn. rewrite Hs. cbn.
       by destruct (except_ValidationError e). }
  pose proof (write_attempt_effects content filename mime summary meta
                encoding overwrite_artifact_id sess st) as Hna.
  rewrite (write_file_unfold content filename session_id mime summary meta
             encoding overwrite_artifact_id sess Hs).
  destruct (write_attempt _ sess st) as [[ai|e] st1 efa] eqn:Ha;
    cbn [effects] in Hna.
  - left. cbn [try_outcome bind_outcome]. rewrite effects_after.
    apply no_delete_no_store_app; [done|]. apply finish_effects.
  - cbn [try_outcome]. destruct (except_ProviderError e) eqn:Hpe.
    + destruct e as [| | | | | |msg|]; try done.
      destruct (legacy_conflict overwrite_artifact_id msg) eqn:Hc.
      * right. pose proof Hc as Ht. unfold legacy_conflict in Ht.
        apply andb_true_iff in Ht as [Ht _].
        apply andb_true_iff in Ht as [Ht _].
        destruct overwrite_artifact_id as [ow_id|] eqn:How; [|done].
        exists sess, msg, ow_id. by rewrite Ha.
      * left. unfold overwrite_fallback. cbn [exn_str]. rewrite Hc. cbn.
        by rewrite app_nil_r.
    + left. done.
Qed.

(** X15 ([write_file]).  A write without overwrite target ([None], or the
    empty string) never deletes and never takes the fresh-store path of the
    recovery, whatever the backend answers. *)
Theorem create_never_deletes (st : STORE.St) :
  truthy_opt overwrite_artifact_id = false ->
  no_delete_no_store (effects (the_call st)).
Proof.
  intros Ht. destruct (write_file_run_cases st)
    as [H|(sess & msg & ow_id & _ & _ & _ & Hc)]; [done|].
  unfold legacy_conflict in Hc. by rewrite Ht in Hc.
Qed.

(** X16 ([write_file]).  The only artefact [write_file] ever asks the
    backend to delete is the overwrite target, and only after the attempt
    raised the provider error the recovery recognises. *)
Theorem delete_targets_overwrite_id (st : STORE.St) (id : string)
    (r : res reply) :
  In (Called (Call_delete id) r) (effects (the_call st)) ->
  overwrite_artifact_id = Some id
  /\ exists sess msg,
       validate_session_parameter session_id "write_file" = Ok sess
       /\ result (write_attempt
                    (write_input content filename sess mime summary meta
                       encoding overwrite_artifact_id) sess st)
          = Raise (ProviderError msg)
       /\ legacy_conflict overwrite_artifact_id msg = true.
Proof.
  intros Hin. destruct (write_file_run_cases st)
    as [H|(sess & msg & ow_id & Hs & How & Ha & Hc)].
  { by destruct (H _ Hin). }
  split; [|by eauto].
  destruct (write_file_recovery content filename session_id mime summary meta
              encoding overwrite_artifact_id sess Hs st msg ow_id How Ha Hc)
    as (tail & He & Hres).
  rewrite He in Hin.
  pose proof (write_attempt_effects content filename mime summary meta
                encoding overwrite_artifact_id sess st) as Hna.
  apply in_app_or in Hin as [Hin|Hin]; [by destruct (Hna _ Hin)|].
  replace ((Called (Call_delete ow_id) _ :: _) ++ _ ++ tail)
    with (Called (Call_delete ow_id)
            (res_map Reply_val
               (STORE.delete ow_id
                  (final (write_attempt
                            (write_input content filename sess mime summary
                               meta encoding overwrite_artifact_id) sess st))).1)
          :: ((if is_ok (STORE.delete ow_id
                           (final (write_attempt
                                     (write_input content filename sess mime
                                        summary meta encoding
                                        overwrite_artifact_id) sess st))).1
               then []
               else [Logged WARNING
                       ("Failed to delete old artefact " +:+ ow_id)])
              ++ effects (recreate
                            (write_input content filename sess mime summary
                               meta encoding overwrite_artifact_id) sess
                            (STORE.delete ow_id
                               (final (write_attempt
                                         (write_input content filename sess
                                            mime summary meta encoding
                                            overwrite_artifact_id) sess st))).2)
              ++ tail)) in Hin by reflexivity.
  destruct Hin as [Hin|Hin]; [by injection Hin as <- _; rewrite How|].
  exfalso.
  apply in_app_or in Hin as [Hin|Hin].
  { destruct (is_ok _); [done|]. by destruct Hin as [Hin|[]]. }
  apply in_app_or in Hin as [Hin|Hin].
  { by pose proof (recreate_effects _ _ _ _ Hin). }
  destruct (result (recreate _ sess _)) as [ai|e'].
  - destruct Hres as [_ ->].
    by destruct (finish_effects overwrite_artifact_id ai _ _ Hin).
  - destruct Hres as [_ ->]. done.
Qed.

(** X17 ([write_file]).  What is asked of the backend first is the write
    itself, under the effective session, with an empty summary replaced by
    ["Written file: " + filename] and an absent [meta] by the empty mapping. *)
Theorem write_file_request (st : STORE.St) (sess : string) :
  validate_session_parameter session_id "write_file" = Ok sess ->
  exists r rest,
    effects (write_file content filename session_id mime summary meta encoding
               overwrite_artifact_id st)
    = Called (Call_write_file content filename mime
                (if String.eqb summary "" then "Written file: " +:+ filename
                 else summary)
                (Some sess) (default [] meta) encoding overwrite_artifact_id) r
      :: rest.
Proof.
  intros Hs.
  rewrite (write_file_unfold content filename session_id mime summary meta
             encoding overwrite_artifact_id sess Hs).
  destruct (bind_outcome_extends
              (try_outcome
                 (write_attempt
                    (write_input content filename sess mime summary meta
                       encoding overwrite_artifact_id) sess st)
                 except_ProviderError
                 (overwrite_fallback
                    (write_input content filename sess mime summary meta
                       encoding overwrite_artifact_id) sess
                    overwrite_artifact_id))
              (write_result overwrite_artifact_id)) as [t1 ->].
  destruct (try_outcome_extends
              (write_attempt
                 (write_input content filename sess mime summary meta
                    encoding overwrite_artifact_id) sess st)
              except_ProviderError
              (overwrite_fallback
                 (write_input content filename sess mime summary meta
                    encoding overwrite_artifact_id) sess
                 overwrite_artifact_id)) as [t2 ->].
  unfold write_attempt, write_input. run.
  destruct (STORE.write_file _ _ _ _ _ _ _ _ st) as [[art_id|e] st1]; cbn;
    [|by eauto].
  destruct (STORE.metadata art_id st1) as [[m|e] st2]; cbn; [|by eauto].
  destruct (_info m (PyStr art_id) (PyStr sess)); cbn; eauto.
Qed.

(** X18 ([write_file]).  The short presigned URL is an extra: once the write
    and its normalisation went through, a result is returned whether or not
    the URL could be had, with [download_url] set exactly when
    [presign_short] returned one. *)
Theorem write_file_presign_optional (st : STORE.St) (sess art_id : string)
    (info : ArtifactInfo.t) :
  validate_session_parameter session_id "write_file" = Ok sess ->
  let a := write_attempt
             (write_input content filename sess mime summary meta encoding
                overwrite_artifact_id) sess st in
  result a = Ok (art_id, info) ->
  result (the_call st)
  = Ok (WriteFileResult.Build info
          (match fst (STORE.presign_short art_id (final a)) with
           | Ok url => Some url
           | Raise _ => None
           end)
          (if truthy_opt overwrite_artifact_id then "overwrite" else "create")).
Proof.
  intros Hs a Ha. subst a.
  rewrite (write_file_unfold content filename session_id mime summary meta
             encoding overwrite_artifact_id sess Hs).
  destruct (write_attempt _ sess st) as [ra st1 efa]. cbn in Ha. subst ra.
  cbn [try_outcome bind_outcome final]. rewrite result_after.
  unfold write_result. run.
  by destruct (STORE.presign_short art_id st1) as [[u|e] st2].
Qed.

End WriteFileMore.

(** ** [upload_file], [update_metadata], [move_file] *)

Section MoreToolsProps.
Context `{PY : Pydantic} `{RT : Runtime} `{B64 : Base64}
  `{BK : STORE.ArtifactStore} `{BX : !STOREX.MetadataStore}.

(** X19 ([upload_file]).  Text that the decoder rejects never reaches the
    store: the call raises [ValueError("data_base64 not valid base64:
    ...")], makes no call and leaves the backend as it was. *)
Theorem upload_file_rejects_bad_base64 (data_base64 filename mime : string)
    (session_id summary : option string) (meta : option pydict)
    (st : STORE.St) (sess : string) (e : exn) :
  validate_session_parameter session_id "upload_file" = Ok sess ->
  b64decode_py data_base64 = Raise e ->
  upload_file data_base64 filename mime session_id summary meta st
  = Outcome (Raise (ValueError ("data_base64 not valid base64: "
                                  +:+ exn_str e))) st [].
Proof.
  intros Hs Hd. unfold upload_file. cbn. rewrite Hs. cbn. by rewrite Hd.
Qed.

(** X20 ([upload_file]).  Every result is tagged [operation = "create"]; it
    comes from storing the decoded payload under the effective session, with
    an absent summary as the empty string and an absent [meta] as the empty
    mapping; and [download_url] is set exactly when [presign_short] returned
    a URL for the new id. *)
Theorem upload_file_stores_decoded (data_base64 filename mime : string)
    (session_id summary : option string) (meta : option pydict)
    (st : STORE.St) (r : UploadFileResult.t) :
  let o := upload_file data_base64 filename mime session_id summary meta st in
  result o = Ok r ->
  UploadFileResult.operation r = "create"
  /\ exists sess data art_id st1,
       validate_session_parameter session_id "upload_file" = Ok sess
       /\ b64decode_py data_base64 = Ok data
       /\ STORE.store data mime (default "" summary) filename (Some sess)
            (default [] meta) st = (Ok art_id, st1)
       /\ (UploadFileResult.download_url r
           = match fst (STORE.presign_short art_id
                          (snd (STORE.metadata art_id st1))) with
             | Ok url => Some url
             | Raise _ => None
             end).
Proof.
  cbv zeta. unfold upload_file, _store_and_build_info. run.
  destruct (validate_session_parameter session_id "upload_file") as [sess|e];
    cbn; [|by destruct (except_ValidationError e)].
  destruct (b64decode_py data_base64) as [data|e]; cbn; [|done].
  destruct (STORE.store data mime (default "" summary) filename (Some sess)
              (default [] meta) st) as [[art_id|e] st1] eqn:Hst; cbn; [|done].
  destruct (STORE.metadata art_id st1) as [[m|e] st2] eqn:Hm; cbn; [|done].
  destruct (_info m (PyStr art_id) (PyStr sess)) as [d|e]; cbn; [|done].
  destruct (STORE.presign_short art_id st2) as [[u|e] st3] eqn:Hp; cbn;
    intros [= <-]; cbn; (split; [done|]);
    exists sess, data, art_id, st1; rewrite Hm; cbn; by rewrite Hp.
Qed.

(** X21 ([update_metadata]).  The update asked of the backend is always a
    merging one ([merge=True]).  If it raises, the caller gets [ValueError]
    with the same message and nothing is read; otherwise the metadata is
    read afresh, a failing read is a [ValueError] as well, and the result is
    the normalisation of what was read. *)
Theorem update_metadata_outcomes (artifact_id : string) (meta : pydict)
    (st : STORE.St) :
  (forall e st1,
      STOREX.update_metadata artifact_id meta true st = (Raise e, st1) ->
      update_metadata artifact_id meta st
      = Outcome (Raise (ValueError (exn_str e))) st1 [])
  /\ (forall v st1 e st2,
        STOREX.update_metadata artifact_id meta true st = (Ok v, st1) ->
        STORE.metadata artifact_id st1 = (Raise e, st2) ->
        result (update_metadata artifact_id meta st)
        = Raise (ValueError (exn_str e)))
  /\ (forall v st1 m st2,
        STOREX.update_metadata artifact_id meta true st = (Ok v, st1) ->
        STORE.metadata artifact_id st1 = (Ok m, st2) ->
        result (update_metadata artifact_id meta st)
        = _info m (PyStr artifact_id) (raw_get "session_id" m)
        /\ final (update_metadata artifact_id meta st) = st2).
Proof.
  split; [|split].
  - intros e st1 Hu. unfold update_metadata, unrecorded. run. by rewrite Hu.
  - intros v st1 e st2 Hu Hm. unfold update_metadata, unrecorded. run.
    rewrite Hu. cbn. by rewrite Hm.
  - intros v st1 m st2 Hu Hm. unfold update_metadata, unrecorded. run.
    rewrite Hu. cbn. rewrite Hm. cbn.
    by destruct (_info m (PyStr artifact_id) (raw_get "session_id" m)).
Qed.

(** X22 ([move_file]).  Every failure, that of the normaliser included,
    reaches the caller as [ValueError]; every result is tagged [operation =
    "move"] and carries the normalisation of the record the backend
    returned, with an absent [new_meta] passed as the empty mapping. *)
Theorem move_file_outcomes (artifact_id : string)
    (new_filename : option string) (new_meta : option pydict)
    (st : STORE.St) :
  let o := move_file artifact_id new_filename new_meta st in
  (forall e, result o = Raise e -> exists msg, e = ValueError msg)
  /\ (forall r, result o = Ok r ->
        MoveFileResult.operation r = "move"
        /\ exists m st1,
             STOREX.move_file artifact_id new_filename (default [] new_meta) st
             = (Ok m, st1)
             /\ _info m (PyStr artifact_id) (raw_get "session_id" m)
                = Ok (MoveFileResult.info r))
  /\ (forall m st1 e,
        STOREX.move_file artifact_id new_filename (default [] new_meta) st
        = (Ok m, st1) ->
        _info m (PyStr artifact_id) (raw_get "session_id" m) = Raise e ->
        result o = Raise (ValueError (exn_str e))).
Proof.
  cbv zeta. unfold move_file, unrecorded. run.
  destruct (STOREX.move_file artifact_id new_filename (default [] new_meta) st)
    as [[m|e] st1]; cbn.
  - destruct (_info m (PyStr artifact_id) (raw_get "session_id" m)) as [d|e]
      eqn:Hi; cbn.
    + split; [done|]. split; [|by intros ? ? ? [= <- <-]; rewrite Hi].
      intros r [= <-]. split; [done|]. eauto.
    + split; [by intros ? [= <-]; eauto|]. split; [done|].
      intros ? ? ? [= <- <-]. rewrite Hi. by intros [= <-].
  - split; [by intros ? [= <-]; eauto|]. split; [done|]. done.
Qed.

End MoreToolsProps.

(** By contrast [get_metadata] lets the normaliser's [KeyError] through. *)
Example get_metadata_lets_KeyError_through :
  result (get_metadata (PY := pydantic_strict) (BK := Scripted.backend)
            "A1" [Ok (Reply_raw ex_no_mime)])
  = Raise (KeyError "mime")
  /\ result (move_file (PY := pydantic_strict) (BK := Scripted.backend)
               "A1" None None [Ok (Reply_raw ex_no_mime)])
     = Raise (ValueError "'mime'").
Proof. split; reflexivity. Qed.

(** ** The in-memory store of the test suite *)

Lemma dict_get_set_eq k v d :
  FakeStore.dict_get k (FakeStore.dict_set k v d) = Some v.
Proof.
  induction d as [|[k' v'] d IH]; cbn.
  - by rewrite String.eqb_refl.
  - destruct (String.eqb k k') eqn:E; cbn; by rewrite ?String.eqb_refl, ?E.
Qed.

Lemma dict_get_set_ne k k' v d :
  k' <> k ->
  FakeStore.dict_get k' (FakeStore.dict_set k v d) = FakeStore.dict_get k' d.
Proof.
  intros Hne. induction d as [|[k0 v0] d IH]; cbn.
  - by destruct (String.eqb_spec k' k).
  - destruct (String.eqb_spec k k0) as [->|]; cbn.
    + by destruct (String.eqb_spec k' k0).
    + destruct (String.eqb_spec k' k0); [done|apply IH].
Qed.

Lemma dict_get_pop_ne k k' d :
  k' <> k ->
  FakeStore.dict_get k' (FakeStore.dict_pop k d) = FakeStore.dict_get k' d.
Proof.
  intros Hne. induction d as [|[k0 v0] d IH]; cbn; [done|].
  destruct (String.eqb_spec k k0) as [->|]; cbn.
  - by destruct (String.eqb_spec k' k0).
  - destruct (String.eqb_spec k' k0); [done|apply IH].
Qed.

Lemma In_dict_set k v d k0 o :
  In (k0, o) (FakeStore.dict_set k v d) -> (k0, o) = (k, v) \/ In (k0, o) d.
Proof.
  induction d as [|[k' v'] d IH]; cbn.
  - intros [<-|[]]. by left.
  - destruct (String.eqb k k'); cbn.
    + intros [<-|H]; auto.
    + intros [<-|H]; [by auto|]. destruct (IH H); auto.
Qed.

Lemma In_dict_pop k d k0 o :
  In (k0, o) (FakeStore.dict_pop k d) -> In (k0, o) d.
Proof.
  induction d as [|[k' v'] d IH]; cbn; [done|].
  destruct (String.eqb k k'); cbn; [by auto|].
  intros [<-|H]; auto.
Qed.

Section FakeStoreProps.
Context `{RT : Runtime} (uuid4_hex : nat -> string).

(** X23 ([FakeStore.store], [FakeStore.metadata]).  What [store] puts in is
    what [metadata] hands out: the new id is the next uuid, its record has
    the arguments of [store] and [bytes = len(data)], and the record of
    every other id is as before. *)
Theorem FakeStore_store_then_metadata (data : pybytes)
    (mime summary filename : string) (session_id : option string)
    (meta : pydict) (st : FakeStore.state) :
  let id := uuid4_hex (FakeStore.draws st) in
  let st1 := snd (FakeStore.store uuid4_hex data mime summary filename
                    session_id meta st) in
  fst (FakeStore.store uuid4_hex data mime summary filename session_id meta st)
  = Ok id
  /\ FakeStore.metadata id st1
     = (Ok (FakeStore.to_raw
              (FakeStore.Obj id filename mime (Z.of_nat (length data)) summary
                 "2025-06-01T00:00:00Z" session_id meta)), st1)
  /\ (forall other, other <> id ->
        FakeStore.metadata other st1
        = (fst (FakeStore.metadata other st), st1)).
Proof.
  cbv zeta. unfold FakeStore.store, FakeStore.metadata. cbn.
  split; [done|]. split.
  - by rewrite dict_get_set_eq.
  - intros other Hne. rewrite dict_get_set_ne by done.
    by destruct (FakeStore.dict_get other (FakeStore._objects st)).
Qed.

(** X24 ([FakeStore.delete]).  [delete] answers whether the id was there,
    removes it for good (a lookup raises [KeyError], a second delete answers
    [False]) and leaves every other id alone. *)
Theorem FakeStore_delete_effect (id : string) (st : FakeStore.state) :
  let st1 := snd (FakeStore.delete id st) in
  fst (FakeStore.delete id st)
  = Ok (PyBool (bool_decide (is_Some (FakeStore.dict_get id
                                        (FakeStore._objects st)))))
  /\ FakeStore.metadata id st1 = (Raise (KeyError id), st1)
  /\ fst (FakeStore.delete id st1) = Ok (PyBool false)
  /\ (forall other, other <> id ->
        FakeStore.metadata other st1
        = (fst (FakeStore.metadata other st), st1)).
Proof.
  cbv zeta. unfold FakeStore.delete, FakeStore.metadata. cbn.
  rewrite !FakeStore_get_after_pop. repeat split.
  - by destruct (FakeStore.dict_get id (FakeStore._objects st)).
  - intros other Hne. rewrite dict_get_pop_ne by done.
    by destruct (FakeStore.dict_get other (FakeStore._objects st)).
Qed.

(** X25 ([FakeStore.write_file]).  An object owned by another session is not
    overwritten: the double raises the provider error naming the owner and
    the caller, and its state is unchanged. *)
Theorem FakeStore_refuses_cross_session (content filename mime summary : string)
    (sess : string) (meta : pydict) (encoding ow owner : string)
    (old : FakeStore.obj) (st : FakeStore.state) :
  ow <> "" ->
  FakeStore.dict_get ow (FakeStore._objects st) = Some old ->
  FakeStore.o_session_id old = Some owner ->
  owner <> sess ->
  FakeStore.write_file uuid4_hex content filename mime summary (Some sess)
    meta encoding (Some ow) st
  = (Raise (ProviderError
              ("Cross-session overwrite not permitted. "
               +:+ "Artifact " +:+ ow +:+ " belongs to session '" +:+ owner
               +:+ "', cannot overwrite from session '" +:+ sess +:+ "'.")),
     st).
Proof.
  intros Hne Hg Ho Hs. unfold FakeStore.write_file. cbn [truthy].
  destruct (String.eqb_spec ow ""); [done|]. cbn [negb].
  rewrite Hg, Ho. cbn.
  by destruct (String.eqb_spec owner sess).
Qed.

(** X26 ([FakeStore.list_by_prefix]).  The listing holds exactly the records
    of the stored objects that belong to the session asked for and whose
    filename starts with the prefix; the limit plays no part, and the state
    of the double is not changed. *)
Theorem FakeStore_list_by_prefix_exact (session_id prefix : string)
    (limit : Z) (st : FakeStore.state) (m : raw) :
  snd (FakeStore.list_by_prefix session_id prefix limit st) = st
  /\ FakeStore.list_by_prefix session_id prefix limit st
     = FakeStore.list_by_prefix session_id prefix 0 st
  /\ (exists l, fst (FakeStore.list_by_prefix session_id prefix limit st) = Ok l
              /\ (In m l
                  <-> exists k o,
                        In (k, o) (FakeStore._objects st)
                        /\ FakeStore.o_session_id o = Some session_id
                        /\ starts_with prefix (FakeStore.o_filename o) = true
                        /\ m = FakeStore.to_raw o)).
Proof.
  split; [reflexivity|]. split; [reflexivity|].
  unfold FakeStore.list_by_prefix. cbn. eexists. split; [reflexivity|].
  rewrite in_map_iff. split.
  - intros (o & <- & Hin). apply list_elem_of_In in Hin.
    apply list_elem_of_filter in Hin as [[Hs Hp] Hin].
    apply list_elem_of_In, in_map_iff in Hin as ([k o'] & <- & Hin).
    exists k, o'. done.
  - intros (k & o & Hin & Hs & Hp & ->). exists o. split; [done|].
    apply list_elem_of_In, list_elem_of_filter. split; [done|].
    apply list_elem_of_In, in_map_iff. by exists (k, o).
Qed.

(** X27 ([FakeStore.store], [FakeStore.write_file], [FakeStore.delete]).
    The methods of the double that change its state keep every entry under
    its own id. *)
Theorem FakeStore_keeps_keyed (st : FakeStore.state) :
  keyed st ->
  (forall data mime summary filename session_id meta,
      keyed (snd (FakeStore.store uuid4_hex data mime summary filename
                    session_id meta st)))
  /\ (forall content filename mime summary session_id meta encoding ow,
        keyed (snd (FakeStore.write_file uuid4_hex content filename mime
                      summary session_id meta encoding ow st)))
  /\ (forall id, keyed (snd (FakeStore.delete id st))).
Proof.
  intros Hk.
  assert (forall st', keyed st' ->
            forall data mime summary filename session_id meta,
              keyed (snd (FakeStore.store uuid4_hex data mime summary filename
                            session_id meta st'))) as Hstore.
  { intros st' Hk' data mime summary filename session_id meta k o Hin.
    cbn in Hin. apply In_dict_set in Hin as [[= -> ->]|Hin]; [done|].
    by apply Hk'. }
  assert (forall id st', keyed st' ->
            keyed (FakeStore.State (FakeStore.dict_pop id (FakeStore._objects st'))
                     (FakeStore.draws st'))) as Hpop.
  { intros id st' Hk' k o Hin. cbn in Hin. apply In_dict_pop in Hin.
    by apply Hk'. }
  split; [by apply Hstore|]. split.
  - intros content filename mime summary session_id meta encoding ow.
    unfold FakeStore.write_file.
    destruct ow as [ow|]; [destruct (truthy (PyStr ow))|].
    + destruct (FakeStore.dict_get ow (FakeStore._objects st)) as [old|];
        [|done].
      destruct (FakeStore.foreign_session _ _); [done|].
      destruct (str_encode content encoding); [|by apply Hpop].
      by apply Hstore, Hpop.
    + destruct (str_encode content encoding); [|done]. by apply Hstore.
    + destruct (str_encode content encoding); [|done]. by apply Hstore.
  - intros id. by apply Hpop.
Qed.

End FakeStoreProps.

(** ** The tools on the in-memory store *)

Lemma raw_get_session_to_raw (o : FakeStore.obj) :
  raw_get "session_id" (FakeStore.to_raw o)
  = of_opt_str (FakeStore.o_session_id o).
Proof.
  unfold raw_get.
  destruct (to_raw_lookups o) as (_ & _ & _ & _ & _ & _ & -> & _). done.
Qed.

Lemma _info_to_raw_own_session `{PY : Pydantic} (o : FakeStore.obj)
    (fallback_id : pyval) (s : string) :
  FakeStore.o_artifact_id o <> "" ->
  FakeStore.o_session_id o = Some s ->
  _info (FakeStore.to_raw o) fallback_id (PyStr s)
  = Ok (ArtifactInfo.Build
          (FakeStore.o_artifact_id o) (Some (FakeStore.o_filename o))
          (FakeStore.o_mime o) (FakeStore.o_bytes o)
          (Some (FakeStore.o_summary o)) (FakeStore.o_stored_at o)
          (Some s) (FakeStore.o_meta o)).
Proof.
  intros Hid Hs. change (PyStr s) with (of_opt_str (Some s)).
  rewrite _info_of_record by done. rewrite Hs. by destruct (String.eqb s "").
Qed.

Lemma _info_session_of_record `{PY : Pydantic} (o : FakeStore.obj)
    (fallback_id : pyval) (s : string) (d : ArtifactInfo.t) :
  _info (FakeStore.to_raw o) fallback_id (PyStr s) = Ok d ->
  FakeStore.o_session_id o = Some s ->
  ArtifactInfo.session_id d = Some s.
Proof.
  intros Hd Hs. apply _info_inv in Hd as (_ & _ & _ & _ & H).
  rewrite raw_get_session_to_raw, Hs in H. cbn [of_opt_str] in H.
  assert (py_or (PyStr s) (PyStr s) = PyStr s) as E
    by (unfold py_or; by destruct (truthy (PyStr s))).
  rewrite E in H. cbn in H. rewrite as_str_str in H. cbn in H. congruence.
Qed.

Lemma dict_get_In k d o :
  FakeStore.dict_get k d = Some o -> In (k, o) d.
Proof.
  induction d as [|[k' v'] d IH]; cbn; [done|].
  destruct (String.eqb_spec k k') as [->|]; [by intros [= ->]; left|].
  intros H. right. by apply IH.
Qed.

Section ToolsOnFakeStore.
Context `{PY : Pydantic} `{RT : Runtime} `{B64 : Base64}
  (uuid4_hex : nat -> string).

#[local] Abbreviation fake_backend := (FakeStore.backend uuid4_hex).

Ltac fake_step :=
  cbn -[FakeStore.to_raw _info FakeStore.dict_get FakeStore.dict_set
        FakeStore.dict_pop raw_get].

(** X28 ([upload_file], [get_metadata] on [FakeStore]).  Upload, then look
    the artefact up: the descriptor is the same both times, filed under the
    effective session, and its [bytes] is the length of the decoded payload. *)
Theorem upload_then_get_metadata (data_base64 filename mime : string)
    (session_id summary : option string) (meta : option pydict)
    (st : FakeStore.state) (sess : string) (data : pybytes) :
  validate_session_parameter session_id "upload_file" = Ok sess ->
  b64decode_py data_base64 = Ok data ->
  uuid4_hex (FakeStore.draws st) <> "" ->
  let id := uuid4_hex (FakeStore.draws st) in
  let d := ArtifactInfo.Build id (Some filename) mime
             (Z.of_nat (length data)) (Some (default "" summary))
             "2025-06-01T00:00:00Z" (Some sess) (default [] meta) in
  let o := upload_file (BK := fake_backend) data_base64 filename mime
             session_id summary meta st in
  result o = Ok (UploadFileResult.Build d (Some ("https://example/" +:+ id))
                   "create")
  /\ result (get_metadata (BK := fake_backend) id (final o)) = Ok d.
Proof.
  intros Hs Hd Hid. cbv zeta.
  unfold upload_file, get_metadata, _store_and_build_info. open_store.
  fake_step. rewrite Hs. fake_step. rewrite Hd. fake_step.
  unfold FakeStore.metadata. fake_step. rewrite dict_get_set_eq. fake_step.
  rewrite _info_to_raw_own_session by done. fake_step.
  split; [done|].
  rewrite dict_get_set_eq. fake_step.
  rewrite raw_get_session_to_raw. cbn [FakeStore.o_session_id of_opt_str].
  by rewrite _info_to_raw_own_session.
Qed.

(** X29 ([write_file], [get_metadata] on [FakeStore]).  Write a new file,
    then look it up: the descriptor is the same both times, filed under the
    effective session, and its [bytes] is the length of the encoded content. *)
Theorem write_then_get_metadata (content filename : string)
    (session_id : option string) (mime summary : string)
    (meta : option pydict) (encoding : string)
    (st : FakeStore.state) (sess : string) (data : pybytes) :
  validate_session_parameter session_id "write_file" = Ok sess ->
  str_encode content encoding = Ok data ->
  uuid4_hex (FakeStore.draws st) <> "" ->
  let id := uuid4_hex (FakeStore.draws st) in
  let d := ArtifactInfo.Build id (Some filename) mime
             (Z.of_nat (length data))
             (Some (if String.eqb summary "" then "Written file: " +:+ filename
                    else summary))
             "2025-06-01T00:00:00Z" (Some sess) (default [] meta) in
  let o := write_file (BK := fake_backend) content filename session_id mime
             summary meta encoding None st in
  result o = Ok (WriteFileResult.Build d (Some ("https://example/" +:+ id))
                   "create")
  /\ result (get_metadata (BK := fake_backend) id (final o)) = Ok d.
Proof.
  intros Hs Hd Hid. cbv zeta.
  unfold write_file, write_attempt, write_result, write_input, get_metadata.
  open_store.
  fake_step. rewrite Hs. fake_step.
  unfold FakeStore.write_file. rewrite Hd. fake_step.
  unfold FakeStore.metadata. fake_step. rewrite dict_get_set_eq. fake_step.
  rewrite _info_to_raw_own_session by done. fake_step.
  split; [done|].
  rewrite dict_get_set_eq. fake_step.
  rewrite raw_get_session_to_raw. cbn [FakeStore.o_session_id of_opt_str].
  by rewrite _info_to_raw_own_session.
Qed.

(** X30 ([get_metadata] on [FakeStore]).  On a store whose entries sit under
    their own ids, what [get_metadata] returns for an id is the normalised
    entry stored under that id, and it is filed under that id. *)
Theorem get_metadata_on_keyed (id : string) (st : FakeStore.state)
    (d : ArtifactInfo.t) :
  keyed st ->
  result (get_metadata (BK := fake_backend) id st) = Ok d ->
  ArtifactInfo.artifact_id d = id
  /\ exists o, In (id, o) (FakeStore._objects st)
               /\ ArtifactInfo.filename d = Some (FakeStore.o_filename o)
               /\ ArtifactInfo.bytes d = FakeStore.o_bytes o.
Proof.
  intros Hk. unfold get_metadata. open_store. fake_step.
  unfold FakeStore.metadata.
  destruct (FakeStore.dict_get id (FakeStore._objects st)) as [o|] eqn:Hg;
    fake_step; [|done].
  pose proof (dict_get_In _ _ _ Hg) as Hin. pose proof (Hk _ _ Hin) as Ho.
  destruct (String.eqb_spec id "") as [->|Hne].
  - destruct (_info _ _ _) as [d'|e] eqn:Hi; fake_step; [|done].
    exfalso. apply _info_inv in Hi as (v & Hv & Ht & _).
    destruct (to_raw_lookups o) as (Ha & _).
    unfold resolve_art_id, raw_get in Hv. rewrite Ha, Ho in Hv.
    cbn in Hv. by injection Hv as <-.
  - rewrite raw_get_session_to_raw.
    rewrite _info_of_record by congruence. fake_step.
    intros [= <-]. cbn. split; [done|]. by exists o.
Qed.

(** On the test double a written artefact is always filed under the
    caller's effective session, on the direct path and in the recovery: the
    session of every result of [write_file] is that session. *)
Lemma stored_then_info (data : pybytes) (mime summary filename sess : string)
    (meta : pydict) (st : FakeStore.state) ai :
  result (_store_and_build_info (BK := fake_backend) data filename mime summary
            sess meta st) = Ok ai ->
  ArtifactInfo.session_id (snd ai) = Some sess.
Proof.
  unfold _store_and_build_info. open_store. fake_step.
  unfold FakeStore.metadata. fake_step. rewrite dict_get_set_eq. fake_step.
  destruct (_info _ _ _) as [d|e] eqn:Hi; fake_step; [|done].
  intros [= <-]. cbn. by eapply _info_session_of_record.
Qed.

Lemma write_attempt_on_FakeStore inp sess st ai :
  result (write_attempt (BK := fake_backend) inp sess st) = Ok ai ->
  ArtifactInfo.session_id (snd ai) = Some sess.
Proof.
  unfold write_attempt. open_store. fake_step.
  destruct (FakeStore.write_file _ _ _ _ _ _ _ _ _ _) as [[id|e] st1] eqn:Hw;
    fake_step; [|done].
  assert (exists o, FakeStore.dict_get id (FakeStore._objects st1) = Some o
                    /\ FakeStore.o_session_id o = Some sess) as (o & Hg & Ho).
  { unfold FakeStore.write_file in Hw.
    destruct (match WriteFileInput.overwrite_artifact_id inp with
              | Some _ => _ | None => _ end) as [st0|e]; [|done].
    destruct (str_encode _ _) as [data|e]; [|done].
    injection Hw as <- <-. eexists. cbn. by rewrite dict_get_set_eq. }
  unfold FakeStore.metadata. rewrite Hg. fake_step.
  destruct (_info _ _ _) as [d|e] eqn:Hi; fake_step; [|done].
  intros [= <-]. cbn. by eapply _info_session_of_record.
Qed.

Lemma overwrite_fallback_on_FakeStore inp sess ow e st ai :
  result (overwrite_fallback (BK := fake_backend) inp sess ow e st) = Ok ai ->
  ArtifactInfo.session_id (snd ai) = Some sess.
Proof.
  unfold overwrite_fallback.
  destruct (legacy_conflict ow (exn_str e)); [|done].
  unfold delete_old, recreate, STORE_delete. cbn -[_store_and_build_info].
  destruct (str_encode _ _) as [data|e']; cbn -[_store_and_build_info];
    [|done].
  rewrite !result_after. apply stored_then_info.
Qed.

Lemma write_file_session_on_FakeStore (content filename : string)
    (session_id : option string) (mime summary : string)
    (meta : option pydict) (encoding : string)
    (overwrite_artifact_id : option string) (st : FakeStore.state)
    (sess : string) (r : WriteFileResult.t) :
  validate_session_parameter session_id "write_file" = Ok sess ->
  result (write_file (BK := fake_backend) content filename session_id mime
            summary meta encoding overwrite_artifact_id st) = Ok r ->
  ArtifactInfo.session_id (WriteFileResult.info r) = Some sess.
Proof.
  intros Hs.
  rewrite (write_file_unfold content filename session_id mime summary meta
             encoding overwrite_artifact_id sess Hs).
  destruct (write_attempt (BK := fake_backend) _ sess st)
    as [[ai|e] st1 efa] eqn:Ha.
  - cbn [try_outcome bind_outcome]. rewrite result_after. intros Hr.
    apply finish_result in Hr as [-> _].
    eapply write_attempt_on_FakeStore. by rewrite Ha.
  - cbn [try_outcome]. destruct (except_ProviderError e); [|done].
    destruct (overwrite_fallback (BK := fake_backend) _ sess
                overwrite_artifact_id e st1)
      as [[ai|e'] st2 ef2] eqn:Hf; cbn [after bind_outcome]; [|done].
    rewrite result_after. intros Hr. apply finish_result in Hr as [-> _].
    eapply overwrite_fallback_on_FakeStore. by rewrite Hf.
Qed.

End ToolsOnFakeStore.

(** ** Closed instances of the statements above *)

Lemma inline_payload_decodes_witness :
  exists data, b64decode "aGk=" = Some data.
Proof.
  destruct (inline_payload_decodes (BK := Scripted.backend) "A1" true
              script_presign_down None "aGk=" eq_refl) as (_ & data & Hd & _).
  by exists data.
Defined.

Lemma download_file_failures_witness :
  download_file (PY := pydantic_strict) (BK := Scripted.backend) "A1" true
    [Raise (KeyError "A1")]
  = Outcome (Raise (ValueError "'A1'")) []
      [Called (Call_metadata "A1") (Raise (KeyError "A1"))].
Proof.
  exact (proj1 (download_file_failures (PY := pydantic_strict)
                  (BK := Scripted.backend) "A1" true [Raise (KeyError "A1")])
           (KeyError "A1") [] eq_refl).
Defined.

Lemma download_file_response_witness :
  let r := DownloadFileResult.Build
             (ArtifactInfo.Build "id0" (Some "doc.txt") "text/plain" 3
                (Some "legacy") "2025-06-01T00:00:00Z" None [])
             None (Some "ZHVtbXk=") in
  result (download_file (PY := pydantic_strict) (BK := fake) "id0" false
            fake_with_legacy) = Ok r
  /\ ((is_Some (DownloadFileResult.download_url r)
       /\ DownloadFileResult.data_base64 r = None)
      \/ (DownloadFileResult.download_url r = None
          /\ is_Some (DownloadFileResult.data_base64 r))).
Proof.
  cbv zeta. split; [reflexivity|].
  exact (proj2 (download_file_response (PY := pydantic_strict) (BK := fake)
                  "id0" false fake_with_legacy _ eq_refl)).
Defined.

Lemma get_metadata_requested_id_witness :
  result (get_metadata (PY := pydantic_strict) (BK := Scripted.backend) "A1"
            [Ok (Reply_raw ex_keyless)])
  = Ok (ArtifactInfo.Build "A1" None "text/plain" 3 None
          "2025-06-01T00:00:00Z" None [])
  /\ ArtifactInfo.artifact_id
       (ArtifactInfo.Build "A1" None "text/plain" 3 None
          "2025-06-01T00:00:00Z" None []) = "A1".
Proof.
  split; [reflexivity|].
  exact (proj2 (get_metadata_requested_id (PY := pydantic_strict)
                  (BK := Scripted.backend) "A1" [Ok (Reply_raw ex_keyless)])
           ex_keyless [] _ eq_refl eq_refl eq_refl eq_refl eq_refl).
Defined.

Lemma copy_file_failures_witness :
  copy_file (PY := pydantic_strict) (BK := Scripted.backend) "A1" None None
    [Raise (ProviderError "no such artefact")]
  = Outcome (Raise (ValueError "no such artefact")) []
      [Called (Call_copy_file "A1" None None [])
         (Raise (ProviderError "no such artefact"))].
Proof.
  exact (proj1 (copy_file_failures (PY := pydantic_strict)
                  (BK := Scripted.backend) "A1" None None
                  [Raise (ProviderError "no such artefact")])
           (ProviderError "no such artefact") [] eq_refl).
Defined.

Lemma read_file_failures_witness :
  exists msg,
    result (read_file (PY := pydantic_strict) (BK := Scripted.backend)
              "A1" false "utf-8" script_read_text)
    = Raise (TypeError msg).
Proof.
  destruct (read_file_failures (PY := pydantic_strict)
              (BK := Scripted.backend) "A1" false "utf-8" script_read_text)
    as (_ & _ & H).
  apply (H (PyStr "hello") [] eq_refl eq_refl). discriminate.
Defined.

Lemma list_session_files_all_or_nothing_witness :
  let r := ListSessionFilesResult.Build 1 "abc123"
             [ArtifactInfo.Build "id0" (Some "hello.txt") "text/plain" 11
                (Some "demo") "2025-06-01T00:00:00Z" (Some "abc123") []] in
  result (list_session_files (PY := pydantic_strict) (RT := runtime_plain)
            (BK := fake) (Some "abc123") None fake_with_hello) = Ok r
  /\ ListSessionFilesResult.count r = 1%Z
  /\ ListSessionFilesResult.session_id r = "abc123".
Proof.
  cbv zeta.
  assert (result (list_session_files (PY := pydantic_strict)
                    (RT := runtime_plain) (BK := fake) (Some "abc123") None
                    fake_with_hello)
          = Ok (ListSessionFilesResult.Build 1 "abc123"
                  [ArtifactInfo.Build "id0" (Some "hello.txt") "text/plain" 11
                     (Some "demo") "2025-06-01T00:00:00Z" (Some "abc123") []]))
    as Hr by (vm_compute; reflexivity).
  split; [exact Hr|].
  destruct (list_session_files_all_or_nothing (PY := pydantic_strict)
              (RT := runtime_plain) (BK := fake) (Some "abc123") None
              fake_with_hello fake_with_hello "abc123" _ eq_refl eq_refl)
    as (_ & H & _).
  destruct (H _ Hr) as (Hc & Hs & _). split; [exact Hc|exact Hs].
Defined.

Lemma list_directory_all_or_nothing_witness :
  let r := ListDirectoryResult.Build 1 "abc123" "hello"
             [ArtifactInfo.Build "id0" (Some "hello.txt") "text/plain" 11
                (Some "demo") "2025-06-01T00:00:00Z" (Some "abc123") []] in
  result (list_directory (PY := pydantic_strict) (RT := runtime_plain)
            (BK := fake) "hello" (Some "abc123") fake_with_hello) = Ok r
  /\ ListDirectoryResult.count r = 1%Z
  /\ ListDirectoryResult.directory r = "hello".
Proof.
  cbv zeta.
  assert (result (list_directory (PY := pydantic_strict)
                    (RT := runtime_plain) (BK := fake) "hello" (Some "abc123")
                    fake_with_hello)
          = Ok (ListDirectoryResult.Build 1 "abc123" "hello"
                  [ArtifactInfo.Build "id0" (Some "hello.txt") "text/plain" 11
                     (Some "demo") "2025-06-01T00:00:00Z" (Some "abc123") []]))
    as Hr by (vm_compute; reflexivity).
  split; [exact Hr|].
  destruct (list_directory_all_or_nothing (PY := pydantic_strict)
              (RT := runtime_plain) (BK := fake) "hello" (Some "abc123")
              fake_with_hello fake_with_hello "abc123" _ eq_refl eq_refl)
    as (_ & H & _).
  destruct (H _ Hr) as (Hc & _ & Hd & _). split; [exact Hc|exact Hd].
Defined.

Lemma no_session_no_store_call_witness :
  list_session_files (PY := pydantic_strict) (RT := runtime_plain)
    (BK := fake) None None fake_with_hello
  = Outcome
      (Raise (ValueError "Operation 'list_session_files' requires a session_id"))
      fake_with_hello [].
Proof.
  exact (proj1 (no_session_no_store_call (PY := pydantic_strict)
                  (RT := runtime_plain) (BK := fake) (B64 := base64_strict)
                  None fake_with_hello) _ None eq_refl eq_refl).
Defined.

Lemma create_never_deletes_witness :
  no_delete_no_store
    (effects (write_file (PY := pydantic_strict) (RT := runtime_plain)
                (BK := fake) "hello world" "hello.txt" (Some "abc123")
                "text/plain" "demo" (Some []) "utf-8" None FakeStore.empty)).
Proof.
  exact (create_never_deletes (PY := pydantic_strict) (RT := runtime_plain)
           (BK := fake) "hello world" "hello.txt" (Some "abc123") "text/plain"
           "demo" (Some []) "utf-8" None FakeStore.empty eq_refl).
Defined.

Lemma delete_targets_overwrite_id_witness : Some "A1" = Some "A1".
Proof.
  refine (proj1 (delete_targets_overwrite_id (PY := pydantic_strict)
                   (RT := runtime_plain) (BK := Scripted.backend)
                   "new content" "doc.txt" (Some "team42") "text/plain"
                   "overwrite" None "utf-8" (Some "A1") script_delete_fails
                   "A1"
                   (Raise (OtherException "ConnectionError" "backend away"))
                   _)).
  vm_compute. right. left. reflexivity.
Defined.

Lemma write_file_request_witness :
  exists r rest,
    effects (write_file (PY := pydantic_strict) (RT := runtime_plain)
               (BK := fake) "hello world" "hello.txt" (Some "abc123")
               "text/plain" "" None "utf-8" None FakeStore.empty)
    = Called (Call_write_file "hello world" "hello.txt" "text/plain"
                "Written file: hello.txt" (Some "abc123") [] "utf-8" None) r
      :: rest.
Proof.
  exact (write_file_request (PY := pydantic_strict) (RT := runtime_plain)
           (BK := fake) "hello world" "hello.txt" (Some "abc123") "text/plain"
           "" None "utf-8" None FakeStore.empty "abc123" eq_refl).
Defined.

Lemma write_file_presign_optional_witness :
  result (write_file (PY := pydantic_strict) (RT := runtime_plain)
            (BK := Scripted.backend) "new content" "doc.txt" (Some "team42")
            "text/plain" "overwrite" None "utf-8" None script_written_no_url)
  = Ok (WriteFileResult.Build
          (ArtifactInfo.Build "N9" (Some "doc.txt") "text/plain" 3
             (Some "overwrite") "2025-06-01T00:00:00Z" (Some "team42") [])
          None "create").
Proof.
  exact (write_file_presign_optional (PY := pydantic_strict)
           (RT := runtime_plain) (BK := Scripted.backend)
           "new content" "doc.txt" (Some "team42") "text/plain" "overwrite"
           None "utf-8" None script_written_no_url "team42" "N9" _ eq_refl
           eq_refl).
Defined.

Lemma upload_file_rejects_bad_base64_witness :
  upload_file (PY := pydantic_strict) (RT := runtime_plain)
    (B64 := base64_strict) (BK := fake) "aGk" "a.bin"
    "application/octet-stream" (Some "abc123") None None FakeStore.empty
  = Outcome
      (Raise (ValueError "data_base64 not valid base64: Incorrect padding"))
      FakeStore.empty [].
Proof.
  exact (upload_file_rejects_bad_base64 (PY := pydantic_strict)
           (RT := runtime_plain) (B64 := base64_strict) (BK := fake)
           "aGk" "a.bin" "application/octet-stream" (Some "abc123")
           None None FakeStore.empty "abc123" _ eq_refl eq_refl).
Defined.

Lemma upload_file_stores_decoded_witness :
  UploadFileResult.operation
    (UploadFileResult.Build
       (ArtifactInfo.Build "id0" (Some "a.bin") "application/octet-stream" 2
          (Some "") "2025-06-01T00:00:00Z" (Some "abc123") [])
       (Some "https://example/id0") "create") = "create".
Proof.
  exact (proj1 (upload_file_stores_decoded (PY := pydantic_strict)
                  (RT := runtime_plain) (B64 := base64_strict) (BK := fake)
                  "aGk=" "a.bin" "application/octet-stream" (Some "abc123")
                  None None FakeStore.empty _ eq_refl)).
Defined.

Lemma update_metadata_outcomes_witness :
  result (update_metadata (PY := pydantic_strict) (BK := Scripted.backend)
            "A1" [("colour", PyStr "red")] script_updated)
  = Ok (ArtifactInfo.Build "A1" None "text/plain" 3 None
          "2025-06-01T00:00:00Z" (Some "team42") []).
Proof.
  destruct (update_metadata_outcomes (PY := pydantic_strict)
              (BK := Scripted.backend) "A1" [("colour", PyStr "red")]
              script_updated) as (_ & _ & H).
  exact (proj1 (H PyNone [Ok (Reply_raw ex_owned)] ex_owned [] eq_refl eq_refl)).
Defined.

Lemma move_file_outcomes_witness :
  result (move_file (PY := pydantic_strict) (BK := Scripted.backend)
            "A1" (Some "b.txt") None [Ok (Reply_raw ex_no_mime)])
  = Raise (ValueError "'mime'").
Proof.
  destruct (move_file_outcomes (PY := pydantic_strict)
              (BK := Scripted.backend) "A1" (Some "b.txt") None
              [Ok (Reply_raw ex_no_mime)]) as (_ & _ & H).
  exact (H ex_no_mime [] (KeyError "mime") eq_refl eq_refl).
Defined.

Lemma FakeStore_refuses_cross_session_witness :
  FakeStore.write_file (RT := runtime_plain) demo_uuid "new content" "doc.txt"
    "text/plain" "overwrite" (Some "team42") [] "utf-8" (Some "id0")
    fake_with_alice
  = (Raise (ProviderError
              "Cross-session overwrite not permitted. Artifact id0 belongs to session 'alice', cannot overwrite from session 'team42'."),
     fake_with_alice).
Proof.
  apply (FakeStore_refuses_cross_session (RT := runtime_plain) demo_uuid
           "new content" "doc.txt" "text/plain" "overwrite" "team42" []
           "utf-8" "id0" "alice"
           (FakeStore.Obj "id0" "doc.txt" "text/plain" 3 "hers"
              "2025-06-01T00:00:00Z" (Some "alice") []));
    (reflexivity || discriminate).
Defined.

Lemma keyed_empty : keyed FakeStore.empty.
Proof. by intros k o []. Qed.

Lemma FakeStore_keeps_keyed_witness :
  keyed (snd (FakeStore.delete "id0"
                (snd (FakeStore.store demo_uuid [] "text/plain" "s" "f.txt"
                        (Some "abc123") [] FakeStore.empty)))).
Proof.
  destruct (FakeStore_keeps_keyed demo_uuid FakeStore.empty keyed_empty)
    as (Hs & _ & _).
  destruct (FakeStore_keeps_keyed (RT := runtime_plain) demo_uuid _
              (Hs [] "text/plain" "s" "f.txt" (Some "abc123") []))
    as (_ & _ & Hd).
  exact (Hd "id0").
Defined.

Lemma upload_then_get_metadata_witness :
  let d := ArtifactInfo.Build "id0" (Some "a.bin") "application/octet-stream"
             2 (Some "") "2025-06-01T00:00:00Z" (Some "abc123") [] in
  result (get_metadata (PY := pydantic_strict) (BK := fake) "id0"
            (final (upload_file (PY := pydantic_strict) (RT := runtime_plain)
                      (B64 := base64_strict) (BK := fake) "aGk=" "a.bin"
                      "application/octet-stream" (Some "abc123") None None
                      FakeStore.empty)))
  = Ok d.
Proof.
  refine (proj2 (upload_then_get_metadata (PY := pydantic_strict)
                   (RT := runtime_plain) (B64 := base64_strict) demo_uuid
                   "aGk=" "a.bin" "application/octet-stream" (Some "abc123")
                   None None FakeStore.empty "abc123"
                   ["h"%byte; "i"%byte] eq_refl eq_refl _)).
  discriminate.
Defined.

Lemma write_then_get_metadata_witness :
  let d := ArtifactInfo.Build "id0" (Some "hello.txt") "text/plain" 11
             (Some "demo") "2025-06-01T00:00:00Z" (Some "abc123") [] in
  result (get_metadata (PY := pydantic_strict) (BK := fake) "id0"
            fake_with_hello) = Ok d.
Proof.
  refine (proj2 (write_then_get_metadata (PY := pydantic_strict)
                   (RT := runtime_plain) demo_uuid "hello world" "hello.txt"
                   (Some "abc123") "text/plain" "demo" (Some []) "utf-8"
                   FakeStore.empty "abc123" _ eq_refl eq_refl _)).
  discriminate.
Defined.

Lemma keyed_fake_with_legacy : keyed fake_with_legacy.
Proof. intros k o [[= <- <-]|[]]. reflexivity. Qed.

Lemma get_metadata_on_keyed_witness :
  ArtifactInfo.artifact_id
    (ArtifactInfo.Build "id0" (Some "doc.txt") "text/plain" 3
       (Some "legacy") "2025-06-01T00:00:00Z" None []) = "id0".
Proof.
  exact (proj1 (get_metadata_on_keyed (PY := pydantic_strict)
                  (RT := runtime_plain) demo_uuid "id0" fake_with_legacy _
                  keyed_fake_with_legacy eq_refl)).
Defined.
